(** * Edge consumers: litter events and playroom alerts

    A shallow embedding of [edge/consumer.py] together with the parts of
    [api/models.py] and [api/database.py] it calls: the two inbound payload
    schemas, the session scope, the three persistence helpers and the two
    message handlers.

    Conventions.
    - A Python [str] is a [string] holding its UTF-8 bytes; [bytes] is a
      [list byte].
    - A Python [float] is an IEEE 754 binary64 value ([spec_float] at
      precision 53), compared with the IEEE comparison, so that NaN is
      below, equal to and above nothing.
    - Handlers run in a monad threading the process state (tables, open
      session, log); a raised exception keeps the state reached so far.
      Neither handler awaits anything, so a handler runs from its first to
      its last statement without another one in between, and one session
      is open at a time.
    - What the process does not decide is read from an environment: the
      wall clock, the UUIDs drawn, whether the database accepts the n-th
      transaction, and what creating the engine and the tables raises.
    - Text-level parsers of the libraries (JSON text, ISO 8601 date-times,
      URLs, lax numeric coercions) are a type class; every general theorem
      holds for all of its instances, and the scenarios run on the instance
      [reference_parsers]. *)

From Stdlib Require Import ZArith List String Ascii Strings.Byte Bool Lia.
From Stdlib Require Import DecimalString.
From Stdlib Require Import Floats.SpecFloat.
From ExtLib Require Import Structures.Monad Structures.MonadExc
  Structures.MonadState Structures.MonadReader.

Set Warnings "-register-all".
Import ListNotations.
Import MonadNotation.

Local Open Scope string_scope.
Local Open Scope list_scope.
Local Open Scope monad_scope.

(** ** Python values *)

(** [float]: binary64. *)
Module PyFloat.
Definition prec : Z := 53.
Definition emax : Z := 1024.

Definition t : Type := spec_float.

Definition lt (x y : t) : bool := SFltb x y.
Definition le (x y : t) : bool := SFleb x y.
Definition gt (x y : t) : bool := SFltb y x.
Definition ge (x y : t) : bool := SFleb y x.

(** [float(n)] for an integer [n], rounded to nearest even. *)
Definition of_Z (n : Z) : t := binary_normalize prec emax n 0 false.

(** The float nearest to [digits * 10 ^ e10], negated when [neg]:
    what [float("0.4")] and a JSON number literal denote. *)
Definition of_decimal (neg : bool) (digits : Z) (e10 : Z) : t :=
  match digits with
  | Zpos m =>
      match e10 with
      | Zneg p =>
          SFdiv prec emax (S754_finite neg m 0)
                (S754_finite false (Pos.pow 10 p) 0)
      | _ => binary_round prec emax neg (m * Z.to_pos (10 ^ e10)) 0
      end
  | _ => S754_zero neg
  end.
End PyFloat.

Arguments PyFloat.lt : simpl never.
Arguments PyFloat.le : simpl never.
Arguments PyFloat.gt : simpl never.
Arguments PyFloat.ge : simpl never.
Arguments PyFloat.of_Z : simpl never.
Arguments PyFloat.of_decimal : simpl never.

(** [bytes.decode("utf-8")]: strict UTF-8 (no overlong forms, no
    surrogates, nothing above U+10FFFF). *)
Module utf8.
Definition between (lo hi : N) (b : byte) : bool :=
  (N.leb lo (Byte.to_N b) && N.leb (Byte.to_N b) hi)%bool.

Definition cont : byte -> bool := between 128 191.

Fixpoint well_formed (bs : list byte) : bool :=
  match bs with
  | [] => true
  | b0 :: r0 =>
      if between 0 127 b0 then well_formed r0
      else if between 194 223 b0 then
        match r0 with
        | b1 :: r1 => cont b1 && well_formed r1
        | _ => false
        end
      else if between 224 239 b0 then
        match r0 with
        | b1 :: b2 :: r2 =>
            (if between 224 224 b0 then between 160 191 b1
             else if between 237 237 b0 then between 128 159 b1
             else cont b1)
            && cont b2 && well_formed r2
        | _ => false
        end
      else if between 240 244 b0 then
        match r0 with
        | b1 :: b2 :: b3 :: r3 =>
            (if between 240 240 b0 then between 144 191 b1
             else if between 244 244 b0 then between 128 143 b1
             else cont b1)
            && cont b2 && cont b3 && well_formed r3
        | _ => false
        end
      else false
  end.

(** [None] stands for [UnicodeDecodeError]. *)
Definition decode (bs : list byte) : option string :=
  if well_formed bs then Some (string_of_list_byte bs) else None.
End utf8.

(** [datetime]: the instant in microseconds since the Unix epoch and the
    UTC offset in seconds; [tzinfo = None] is a naive datetime, whose
    [timestamp] reads its wall-clock fields as if they were UTC. *)
Record datetime : Type := mk_datetime {
  timestamp : Z;
  tzinfo : option Z
}.

Definition timezone_utc : option Z := Some 0%Z.

(** pydantic's [HttpUrl], kept as the text [str(url)] returns: the URL as
    the validator normalised it. *)
Record HttpUrl : Type := mk_HttpUrl { url_str : string }.

(** A parsed JSON document.  An object keeps its members in wire order. *)
Inductive json : Type :=
| JNull
| JBool (b : bool)
| JInt (n : Z)
| JFloat (x : PyFloat.t)
| JStr (s : string)
| JArr (items : list json)
| JObj (members : list (string * json)).

(** ** Parsers taken from the libraries *)

Class Parsers : Type := {
  (** the JSON text parser behind [model_validate_json] *)
  json_loads : string -> option json;
  (** what a [float] field makes of an input that is not a JSON number of
      the 64-bit range: the lax-mode coercions *)
  float_lax : json -> option PyFloat.t;
  (** the validator of a [datetime] field *)
  datetime_validator : json -> option datetime;
  (** the validator of an [HttpUrl] field *)
  url_validator : json -> option HttpUrl
}.

(** ** api/models.py *)

Module models.

(** One line of a [ValidationError]: the error type and the field path.
    A field that is present and refused gets the error type of a wrong
    JSON type; the separate types of a string that does not parse
    ([float_parsing], [datetime_parsing], [url_parsing]) are not told
    apart. *)
Record ErrorDetails : Type := mk_error { type : string; loc : list string }.

Definition str_validator (j : json) : option string :=
  match j with
  | JStr s => Some s
  | _ => None
  end.

(** A JSON number is taken as it is, an integer of the 64-bit range
    converted as [float(n)]; anything else is left to the lax mode. *)
Definition float_validator `{Parsers} (j : json) : option PyFloat.t :=
  match j with
  | JFloat x => Some x
  | JInt n =>
      if ((- 2 ^ 63 <=? n) && (n <? 2 ^ 63))%Z then Some (PyFloat.of_Z n)
      else float_lax j
  | _ => float_lax j
  end.

(** [Dict[str, Any]] *)
Definition dict_validator (j : json) : option (list (string * json)) :=
  match j with
  | JObj members => Some members
  | _ => None
  end.

Fixpoint lookup (key : string) (obj : list (string * json)) : option json :=
  match obj with
  | [] => None
  | (k, v) :: rest => if String.eqb k key then Some v else lookup key rest
  end.

(** A field declared without a default is required. *)
Definition field {A : Type} (obj : list (string * json)) (name : string)
    (validator : json -> option A) (error_type : string)
  : ErrorDetails + A :=
  match lookup name obj with
  | None => inl (mk_error "missing" [name])
  | Some j =>
      match validator j with
      | Some a => inr a
      | None => inl (mk_error error_type [name])
      end
  end.

Definition errors_of {A : Type} (r : ErrorDetails + A) : list ErrorDetails :=
  match r with
  | inl e => [e]
  | inr _ => []
  end.

Definition declared (model_fields : list string) (key : string) : bool :=
  existsb (String.eqb key) model_fields.

(** [ConfigDict(extra="forbid")]: one error per key that is no field. *)
Definition extra_forbidden (model_fields : list string)
    (obj : list (string * json)) : list ErrorDetails :=
  map (fun kv => mk_error "extra_forbidden" [fst kv])
      (filter (fun kv => negb (declared model_fields (fst kv))) obj).

Module LitterEventPayload.
Record t : Type := Build {
  pet_id : string;
  type : string;
  ts : datetime;
  duration_s : PyFloat.t;
  conf : PyFloat.t;
  payload : list (string * json)
}.

Definition model_fields : list string :=
  ["pet_id"; "type"; "ts"; "duration_s"; "conf"; "payload"].

Definition model_validate `{Parsers} (input : json)
  : list ErrorDetails + t :=
  match input with
  | JObj obj =>
      let f_pet_id := field obj "pet_id" str_validator "string_type" in
      let f_type := field obj "type" str_validator "string_type" in
      let f_ts := field obj "ts" datetime_validator "datetime_type" in
      let f_duration_s := field obj "duration_s" float_validator "float_type" in
      let f_conf := field obj "conf" float_validator "float_type" in
      let f_payload := field obj "payload" dict_validator "dict_type" in
      let extra := extra_forbidden model_fields obj in
      match f_pet_id, f_type, f_ts, f_duration_s, f_conf, f_payload, extra with
      | inr a, inr b, inr c, inr d, inr e, inr f, [] =>
          inr (Build a b c d e f)
      | _, _, _, _, _, _, _ =>
          inl (errors_of f_pet_id ++ errors_of f_type ++ errors_of f_ts
               ++ errors_of f_duration_s ++ errors_of f_conf
               ++ errors_of f_payload ++ extra)
      end
  | _ => inl [mk_error "model_type" []]
  end.

Definition model_validate_json `{Parsers} (text : string)
  : list ErrorDetails + t :=
  match json_loads text with
  | Some input => model_validate input
  | None => inl [mk_error "json_invalid" []]
  end.
End LitterEventPayload.

Module PlayroomAlertPayload.
Record t : Type := Build {
  pet_id : string;
  room_id : string;
  kind : string;
  severity : string;
  state : string;
  evidence_url : HttpUrl;
  ts : datetime
}.

Definition model_fields : list string :=
  ["pet_id"; "room_id"; "kind"; "severity"; "state"; "evidence_url"; "ts"].

Definition model_validate `{Parsers} (input : json)
  : list ErrorDetails + t :=
  match input with
  | JObj obj =>
      let f_pet_id := field obj "pet_id" str_validator "string_type" in
      let f_room_id := field obj "room_id" str_validator "string_type" in
      let f_kind := field obj "kind" str_validator "string_type" in
      let f_severity := field obj "severity" str_validator "string_type" in
      let f_state := field obj "state" str_validator "string_type" in
      let f_evidence_url := field obj "evidence_url" url_validator "url_type" in
      let f_ts := field obj "ts" datetime_validator "datetime_type" in
      let extra := extra_forbidden model_fields obj in
      match f_pet_id, f_room_id, f_kind, f_severity, f_state,
            f_evidence_url, f_ts, extra with
      | inr a, inr b, inr c, inr d, inr e, inr f, inr g, [] =>
          inr (Build a b c d e f g)
      | _, _, _, _, _, _, _, _ =>
          inl (errors_of f_pet_id ++ errors_of f_room_id ++ errors_of f_kind
               ++ errors_of f_severity ++ errors_of f_state
               ++ errors_of f_evidence_url ++ errors_of f_ts ++ extra)
      end
  | _ => inl [mk_error "model_type" []]
  end.

Definition model_validate_json `{Parsers} (text : string)
  : list ErrorDetails + t :=
  match json_loads text with
  | Some input => model_validate input
  | None => inl [mk_error "json_invalid" []]
  end.
End PlayroomAlertPayload.

End models.


(** ** The process: exceptions, log, tables, session *)

Inductive exception : Type :=
| ValidationError (errors : list models.ErrorDetails)
| UnicodeDecodeError
| RuntimeError (message : string)
| SQLAlchemyError.

(** [logging]: a record keeps the format string and its arguments. *)
Inductive levelname : Type := INFO | ERROR.

Inductive log_arg : Type :=
| arg_str (s : string)
| arg_exc (exc : exception).

Record LogRecord : Type := mk_log {
  level : levelname;
  msg : string;
  args : list log_arg
}.

(** ORM rows.  [id] and [created_at] have column defaults, filled in when
    the row is flushed. *)
Module EventRecordORM.
Record t : Type := Build {
  id : option string;
  source : string;
  pet_id : string;
  type : string;
  ts : datetime;
  duration_s : option PyFloat.t;
  conf : option PyFloat.t;
  payload_json : list (string * json);
  created_at : option datetime
}.
End EventRecordORM.

Module AlertRecord.
Record t : Type := Build {
  id : option string;
  pet_id : string;
  room_id : option string;
  kind : string;
  severity : string;
  state : string;
  evidence_url : option string;
  ts : datetime;
  created_at : option datetime
}.
End AlertRecord.

Inductive orm_object : Type :=
| orm_event (record : EventRecordORM.t)
| orm_alert (record : AlertRecord.t).

(** What the process cannot decide: the wall clock, the random UUIDs,
    whether the database accepts the n-th transaction, and what
    [create_engine] and [Base.metadata.create_all] raise, if anything, for
    a database URL. *)
Record Env : Type := mk_env {
  utc_clock : nat -> Z;
  uuid4 : nat -> string;
  commit_fails : nat -> bool;
  create_engine_raises : string -> option exception;
  create_all_raises : string -> option exception
}.

(** The process state.  [events] and [alerts] are the committed rows of the
    two tables, oldest first; [pending] holds the objects added to the open
    session and not yet flushed. *)
Record World : Type := mk_world {
  _engine : option string;
  _SessionFactory : option string;
  events : list EventRecordORM.t;
  alerts : list AlertRecord.t;
  pending : list orm_object;
  clock_reads : nat;
  uuids_drawn : nat;
  commits : nat;
  log : list LogRecord
}.

Definition set_factory (url : string) (w : World) : World :=
  mk_world (Some url) (Some url) (events w) (alerts w) (pending w)
           (clock_reads w) (uuids_drawn w) (commits w) (log w).

Definition set_events (rows : list EventRecordORM.t) (w : World) : World :=
  mk_world (_engine w) (_SessionFactory w) rows (alerts w) (pending w)
           (clock_reads w) (uuids_drawn w) (commits w) (log w).

Definition set_alerts (rows : list AlertRecord.t) (w : World) : World :=
  mk_world (_engine w) (_SessionFactory w) (events w) rows (pending w)
           (clock_reads w) (uuids_drawn w) (commits w) (log w).

Definition set_pending (objs : list orm_object) (w : World) : World :=
  mk_world (_engine w) (_SessionFactory w) (events w) (alerts w) objs
           (clock_reads w) (uuids_drawn w) (commits w) (log w).

Definition tick_clock (w : World) : World :=
  mk_world (_engine w) (_SessionFactory w) (events w) (alerts w) (pending w)
           (S (clock_reads w)) (uuids_drawn w) (commits w) (log w).

Definition tick_uuid (w : World) : World :=
  mk_world (_engine w) (_SessionFactory w) (events w) (alerts w) (pending w)
           (clock_reads w) (S (uuids_drawn w)) (commits w) (log w).

Definition tick_commits (w : World) : World :=
  mk_world (_engine w) (_SessionFactory w) (events w) (alerts w) (pending w)
           (clock_reads w) (uuids_drawn w) (S (commits w)) (log w).

Definition add_log (r : LogRecord) (w : World) : World :=
  mk_world (_engine w) (_SessionFactory w) (events w) (alerts w) (pending w)
           (clock_reads w) (uuids_drawn w) (commits w) (log w ++ [r]).

(** A computation either returns or raises; both leave a state behind. *)
Inductive outcome (A : Type) : Type :=
| Return (a : A)
| Raise (exc : exception).
Arguments Return {A} a.
Arguments Raise {A} exc.

Definition M (A : Type) : Type := Env -> World -> outcome A * World.

#[global] Instance Monad_M : Monad M := {|
  ret := fun _ a _ w => (Return a, w);
  bind := fun _ _ c k env w =>
    match c env w with
    | (Return a, w') => k a env w'
    | (Raise exc, w') => (Raise exc, w')
    end
|}.

#[global] Instance MonadExc_M : MonadExc exception M := {|
  raise := fun _ exc _ w => (Raise exc, w);
  catch := fun _ c handler env w =>
    match c env w with
    | (Return a, w') => (Return a, w')
    | (Raise exc, w') => handler exc env w'
    end
|}.

#[global] Instance MonadState_M : MonadState World M := {|
  get := fun _ w => (Return w, w);
  put := fun w' _ _ => (Return tt, w')
|}.

#[global] Instance MonadReader_M : MonadReader Env M := {|
  local := fun (A : Type) (f : Env -> Env) (c : M A) =>
    (fun env w => c (f env) w) : M A;
  ask := (fun env w => (Return env, w)) : M Env
|}.

Definition update (f : World -> World) : M unit :=
  w <- get ;; put (f w).

(** [try: body finally: cleanup] *)
Definition try_finally {A : Type} (body : M A) (cleanup : M unit) : M A :=
  a <- catch body (fun exc => cleanup ;; raise exc) ;;
  cleanup ;;
  ret a.

Definition logger_info (fmt : string) (a : list log_arg) : M unit :=
  update (add_log (mk_log INFO fmt a)).

Definition logger_error (fmt : string) (a : list log_arg) : M unit :=
  update (add_log (mk_log ERROR fmt a)).

(** ** api/database.py *)

Module database.

(** [datetime.now(timezone.utc)] *)
Definition _utcnow : M datetime :=
  env <- ask ;;
  w <- get ;;
  put (tick_clock w) ;;
  ret (mk_datetime (utc_clock env (clock_reads w)) timezone_utc).

(** [str(uuid4())], the default of every [id] column. *)
Definition uuid4_str : M string :=
  env <- ask ;;
  w <- get ;;
  put (tick_uuid w) ;;
  ret (uuid4 env (uuids_drawn w)).

(** Engine, session factory and tables are created once.  When
    [create_engine] raises, neither global is assigned; [create_all] runs
    after both are. *)
Definition configure (database_url : string) : M unit :=
  w <- get ;;
  match _engine w with
  | Some _ => ret tt
  | None =>
      env <- ask ;;
      match create_engine_raises env database_url with
      | Some exc => raise exc
      | None =>
          put (set_factory database_url w) ;;
          match create_all_raises env database_url with
          | Some exc => raise exc
          | None => ret tt
          end
      end
  end.

Definition get_session_factory : M string :=
  w <- get ;;
  match _SessionFactory w with
  | None => raise (RuntimeError "Database has not been configured")
  | Some factory => ret factory
  end.

(** The handle of the open session; its unflushed objects are
    [pending] in the state. *)
Inductive Session : Type := mk_session (bind_url : string).

(** [factory()]: a new session has nothing pending. *)
Definition new_session (factory : string) : M Session :=
  update (set_pending []) ;;
  ret (mk_session factory).

(** [session.add(record)] *)
Definition add (session : Session) (obj : orm_object) : M unit :=
  w <- get ;;
  put (set_pending (pending w ++ [obj]) w).

(** A column default applies when the attribute was left unset. *)
Definition default {A : Type} (attr : option A) (make : M A) : M A :=
  match attr with
  | Some a => ret a
  | None => make
  end.

(** INSERT of one object: the column defaults [id] and [created_at] are
    computed, then the row joins its table. *)
Definition insert (obj : orm_object) : M unit :=
  match obj with
  | orm_event r =>
      id <- default (EventRecordORM.id r) uuid4_str ;;
      created_at <- default (EventRecordORM.created_at r) _utcnow ;;
      w <- get ;;
      let row :=
        EventRecordORM.Build (Some id)
          (EventRecordORM.source r) (EventRecordORM.pet_id r)
          (EventRecordORM.type r) (EventRecordORM.ts r)
          (EventRecordORM.duration_s r) (EventRecordORM.conf r)
          (EventRecordORM.payload_json r) (Some created_at) in
      put (set_events (events w ++ [row]) w)
  | orm_alert r =>
      id <- default (AlertRecord.id r) uuid4_str ;;
      created_at <- default (AlertRecord.created_at r) _utcnow ;;
      w <- get ;;
      let row :=
        AlertRecord.Build (Some id)
          (AlertRecord.pet_id r) (AlertRecord.room_id r) (AlertRecord.kind r)
          (AlertRecord.severity r) (AlertRecord.state r)
          (AlertRecord.evidence_url r) (AlertRecord.ts r) (Some created_at) in
      put (set_alerts (alerts w ++ [row]) w)
  end.

Fixpoint flush (objs : list orm_object) : M unit :=
  match objs with
  | [] => ret tt
  | obj :: rest => insert obj ;; flush rest
  end.

(** [session.commit()]: with nothing pending no transaction has begun and
    nothing happens.  Otherwise the pending objects are flushed, which
    computes their column defaults and inserts them, and the database
    either accepts the transaction, and the rows stay (a later rollback
    does not reach a committed row), or it refuses: the rows inserted in
    the transaction are gone, [commit] raises, and the clock readings and
    UUIDs the flush took are spent. *)
Definition commit (session : Session) : M unit :=
  w <- get ;;
  match pending w with
  | [] => ret tt
  | objs =>
      env <- ask ;;
      put (tick_commits w) ;;
      if commit_fails env (commits w) then
        flush objs ;;
        update (fun w' => set_events (events w) (set_alerts (alerts w) w')) ;;
        raise SQLAlchemyError
      else update (set_pending []) ;; flush objs
  end.

(** [session.rollback()] and [session.close()] drop what is pending. *)
Definition rollback (session : Session) : M unit := update (set_pending []).

Definition close (session : Session) : M unit := update (set_pending []).

(** [with session_scope() as session: body] *)
Definition session_scope {A : Type} (body : Session -> M A) : M A :=
  factory <- get_session_factory ;;
  session <- new_session factory ;;
  try_finally
    (catch (a <- body session ;; commit session ;; ret a)
           (fun exc => rollback session ;; raise exc))
    (close session).

(** The three helpers end in [Model.model_validate(record,
    from_attributes=True)] and return the response; both handlers discard
    it.  Every attribute read back holds a value of the type the response
    declares, with one exception: an alert's [evidence_url] is text, and
    the response parses it again as [Optional[HttpUrl]]. *)
Definition Alert_model_validate `{Parsers} (record : AlertRecord.t) : M unit :=
  match AlertRecord.evidence_url record with
  | None => ret tt
  | Some text =>
      match url_validator (JStr text) with
      | Some _ => ret tt
      | None =>
          raise (ValidationError [models.mk_error "url_type" ["evidence_url"]])
      end
  end.

Definition record_litter_event (session : Session) (subject : string)
    (payload : models.LitterEventPayload.t) : M unit :=
  let record :=
    EventRecordORM.Build None
      subject
      (models.LitterEventPayload.pet_id payload)
      (models.LitterEventPayload.type payload)
      (models.LitterEventPayload.ts payload)
      (Some (models.LitterEventPayload.duration_s payload))
      (Some (models.LitterEventPayload.conf payload))
      (models.LitterEventPayload.payload payload)
      None in
  add session (orm_event record) ;;
  commit session.

Definition record_playroom_alert `{Parsers} (session : Session)
    (payload : models.PlayroomAlertPayload.t) : M unit :=
  let record :=
    AlertRecord.Build None
      (models.PlayroomAlertPayload.pet_id payload)
      (Some (models.PlayroomAlertPayload.room_id payload))
      (models.PlayroomAlertPayload.kind payload)
      (models.PlayroomAlertPayload.severity payload)
      (models.PlayroomAlertPayload.state payload)
      (Some (url_str (models.PlayroomAlertPayload.evidence_url payload)))
      (models.PlayroomAlertPayload.ts payload)
      None in
  add session (orm_alert record) ;;
  commit session ;;
  Alert_model_validate record.

(** The keyword defaults of [create_alert_from_event]:
    [state="open"], [room_id=None], [evidence_url=None], [ts=None]. *)
Definition default_state : string := "open".

Definition create_alert_from_event `{Parsers} (session : Session)
    (pet_id kind severity : string) (state : string)
    (room_id evidence_url : option string) (ts : option datetime) : M unit :=
  ts' <- match ts with
         | Some t => ret t
         | None => _utcnow
         end ;;
  let record :=
    AlertRecord.Build None pet_id room_id kind severity state evidence_url ts'
                      None in
  add session (orm_alert record) ;;
  commit session ;;
  Alert_model_validate record.

End database.

(** ** edge/consumer.py *)

Module consumer.

Record EdgeSettings : Type := mk_settings {
  nats_url : string;
  database_url : string;
  litter_conf_threshold : PyFloat.t;
  litter_duration_threshold : PyFloat.t
}.

(** [EdgeSettings()] when none of the four environment variables is set. *)
Definition default_settings : EdgeSettings :=
  mk_settings "nats://localhost:4222" "sqlite:///./pets.db"
              (PyFloat.of_decimal false 4 (-1)) (PyFloat.of_Z 180).

(** A bus message: what the handlers read of [nats.aio.msg.Msg]. *)
Record Msg : Type := mk_msg { subject : string; data : list byte }.

(** The module body: [database.configure(SETTINGS.database_url)] runs when
    the module is imported, before any message is handled. *)
Definition on_import (SETTINGS : EdgeSettings) : M unit :=
  database.configure (database_url SETTINGS).

Definition decode (bs : list byte) : M string :=
  match utf8.decode bs with
  | Some text => ret text
  | None => raise UnicodeDecodeError
  end.

Definition validated {A : Type} (r : list models.ErrorDetails + A) : M A :=
  match r with
  | inr payload => ret payload
  | inl errors => raise (ValidationError errors)
  end.

Section handlers.
Context `{Parsers}.
Variable SETTINGS : EdgeSettings.

(** In both handlers the [try] statement yields [Some payload] when it
    falls through and [None] when the [except ValidationError] clause ran
    and returned; any other exception passes. *)

Definition handle_litter_event (msg : Msg) : M unit :=
  r <- catch
         (text <- decode (data msg) ;;
          payload <- validated (models.LitterEventPayload.model_validate_json text) ;;
          ret (Some payload))
         (fun exc =>
            match exc with
            | ValidationError _ =>
                logger_error "Invalid litter event received: %s" [arg_exc exc] ;;
                ret None
            | _ => raise exc
            end) ;;
  match r with
  | None => ret tt
  | Some payload =>
      logger_info "Received litter event on %s for pet %s"
        [arg_str (subject msg);
         arg_str (models.LitterEventPayload.pet_id payload)] ;;
      database.session_scope (fun session =>
        database.record_litter_event session (subject msg) payload ;;
        let duration_breach :=
          PyFloat.gt (models.LitterEventPayload.duration_s payload)
                     (litter_duration_threshold SETTINGS) in
        let confidence_breach :=
          PyFloat.lt (models.LitterEventPayload.conf payload)
                     (litter_conf_threshold SETTINGS) in
        if duration_breach || confidence_breach then
          let severity := if confidence_breach then "high" else "moderate" in
          database.create_alert_from_event session
            (models.LitterEventPayload.pet_id payload)
            "litter-anomaly" severity
            database.default_state None None None
        else ret tt)
  end.

Definition handle_playroom_alert (msg : Msg) : M unit :=
  r <- catch
         (text <- decode (data msg) ;;
          payload <- validated (models.PlayroomAlertPayload.model_validate_json text) ;;
          ret (Some payload))
         (fun exc =>
            match exc with
            | ValidationError _ =>
                logger_error "Invalid playroom alert received: %s" [arg_exc exc] ;;
                ret None
            | _ => raise exc
            end) ;;
  match r with
  | None => ret tt
  | Some payload =>
      logger_info "Received playroom alert for room %s"
        [arg_str (models.PlayroomAlertPayload.room_id payload)] ;;
      database.session_scope (fun session =>
        database.record_playroom_alert session payload)
  end.

End handlers.

End consumer.

(** ** A reference instance of the parsers

    JSON text after RFC 8259 (plus the literals [NaN], [Infinity] and
    [-Infinity]); date-times in the RFC 3339 profile of ISO 8601; plain
    [http]/[https] URLs of a host and a path.  Each accepts a part of what
    the library accepts. *)

Module reference.

Local Open Scope Z_scope.
Local Open Scope bool_scope.

Definition code (c : ascii) : Z := Z.of_N (N_of_ascii c).
Definition chr (n : Z) : ascii := ascii_of_N (Z.to_N n).

Definition quote : ascii := chr 34.
Definition backslash : ascii := chr 92.

Definition is_ws (c : ascii) : bool :=
  (code c =? 32) || (code c =? 9) || (code c =? 10) || (code c =? 13).

Fixpoint skip_ws (s : string) : string :=
  match s with
  | String c r => if is_ws c then skip_ws r else s
  | EmptyString => s
  end.

Definition digit (c : ascii) : option Z :=
  if (48 <=? code c) && (code c <=? 57) then Some (code c - 48) else None.

Definition hexdigit (c : ascii) : option Z :=
  if (48 <=? code c) && (code c <=? 57) then Some (code c - 48)
  else if (97 <=? code c) && (code c <=? 102) then Some (code c - 87)
  else if (65 <=? code c) && (code c <=? 70) then Some (code c - 55)
  else None.

Fixpoint strip_prefix (p s : string) : option string :=
  match p, s with
  | EmptyString, _ => Some s
  | String a p', String b s' => if Ascii.eqb a b then strip_prefix p' s' else None
  | _, _ => None
  end.

(** The longest run of digits: its value on top of [acc], its length. *)
Fixpoint read_digits (s : string) (acc count : Z) : Z * Z * string :=
  match s with
  | String c r =>
      match digit c with
      | Some d => read_digits r (acc * 10 + d) (count + 1)
      | None => (acc, count, s)
      end
  | EmptyString => (acc, count, s)
  end.

Definition read_number (s : string) : option (json * string) :=
  let '(neg, s1) :=
    match s with
    | String "-"%char r => (true, r)
    | _ => (false, s)
    end in
  let '(int_part, n_int, s2) := read_digits s1 0 0 in
  let leading_zero :=
    match s1 with
    | String "0"%char _ => 1 <? n_int
    | _ => false
    end in
  if (n_int =? 0) || leading_zero then None
  else
    let frac :=
      match s2 with
      | String "."%char r =>
          let '(m, n_frac, r') := read_digits r int_part 0 in
          if n_frac =? 0 then None else Some (m, n_frac, r')
      | _ => Some (int_part, 0, s2)
      end in
    match frac with
    | None => None
    | Some (mantissa, n_frac, s3) =>
        let exponent :=
          match s3 with
          | String c r =>
              if (code c =? 101) || (code c =? 69) then
                let '(neg_e, r1) :=
                  match r with
                  | String "-"%char r' => (true, r')
                  | String "+"%char r' => (false, r')
                  | _ => (false, r)
                  end in
                let '(e, n_e, r2) := read_digits r1 0 0 in
                if n_e =? 0 then None
                else Some (Some (if neg_e then - e else e), r2)
              else Some (None, s3)
          | EmptyString => Some (None, s3)
          end in
        match exponent with
        | None => None
        | Some (None, s4) =>
            if n_frac =? 0
            then Some (JInt (if neg then - int_part else int_part), s4)
            else Some (JFloat (PyFloat.of_decimal neg mantissa (- n_frac)), s4)
        | Some (Some e, s4) =>
            Some (JFloat (PyFloat.of_decimal neg mantissa (e - n_frac)), s4)
        end
    end.

Definition utf8_encode (cp : Z) : string :=
  if cp <? 128 then String (chr cp) ""
  else if cp <? 2048 then
    String (chr (192 + cp / 64)) (String (chr (128 + cp mod 64)) "")
  else if cp <? 65536 then
    String (chr (224 + cp / 4096))
      (String (chr (128 + (cp / 64) mod 64)) (String (chr (128 + cp mod 64)) ""))
  else
    String (chr (240 + cp / 262144))
      (String (chr (128 + (cp / 4096) mod 64))
         (String (chr (128 + (cp / 64) mod 64))
            (String (chr (128 + cp mod 64)) ""))).

Definition hex4 (a b c d : ascii) : option Z :=
  match hexdigit a, hexdigit b, hexdigit c, hexdigit d with
  | Some x, Some y, Some z, Some t => Some (((x * 16 + y) * 16 + z) * 16 + t)
  | _, _, _, _ => None
  end.

Definition simple_escape (c : ascii) : option ascii :=
  if (code c =? 34) || (code c =? 92) || (code c =? 47) then Some c
  else if code c =? 98 then Some (chr 8)
  else if code c =? 102 then Some (chr 12)
  else if code c =? 110 then Some (chr 10)
  else if code c =? 114 then Some (chr 13)
  else if code c =? 116 then Some (chr 9)
  else None.

Definition prepend (p : string) (r : option (string * string))
  : option (string * string) :=
  match r with
  | Some (body, rest) => Some (p ++ body, rest)%string
  | None => None
  end.

(** The text after an opening quote: the string it spells and what
    follows its closing quote. *)
Fixpoint read_string (s : string) : option (string * string) :=
  match s with
  | EmptyString => None
  | String c r =>
      if Ascii.eqb c quote then Some ("", r)
      else if Ascii.eqb c backslash then
        match r with
        | String e r1 =>
            match simple_escape e with
            | Some c' => prepend (String c' "") (read_string r1)
            | None =>
                if code e =? 117 then
                  match r1 with
                  | String h1 (String h2 (String h3 (String h4 r5))) =>
                      match hex4 h1 h2 h3 h4 with
                      | Some hi =>
                          if (55296 <=? hi) && (hi <? 56320) then
                            match r5 with
                            | String b (String u (String l1 (String l2
                                (String l3 (String l4 r11))))) =>
                                match hex4 l1 l2 l3 l4 with
                                | Some lo =>
                                    if Ascii.eqb b backslash && (code u =? 117)
                                       && (56320 <=? lo) && (lo <? 57344)
                                    then prepend
                                           (utf8_encode (65536 + (hi - 55296) * 1024
                                                         + (lo - 56320)))
                                           (read_string r11)
                                    else None
                                | None => None
                                end
                            | _ => None
                            end
                          else if (56320 <=? hi) && (hi <? 57344) then None
                          else prepend (utf8_encode hi) (read_string r5)
                      | None => None
                      end
                  | _ => None
                  end
                else None
            end
        | EmptyString => None
        end
      else if code c <? 32 then None
      else prepend (String c "") (read_string r)
  end.

Definition read_literal (s : string) : option (json * string) :=
  match strip_prefix "true" s with
  | Some r => Some (JBool true, r)
  | None =>
  match strip_prefix "false" s with
  | Some r => Some (JBool false, r)
  | None =>
  match strip_prefix "null" s with
  | Some r => Some (JNull, r)
  | None =>
  match strip_prefix "NaN" s with
  | Some r => Some (JFloat S754_nan, r)
  | None =>
  match strip_prefix "Infinity" s with
  | Some r => Some (JFloat (S754_infinity false), r)
  | None =>
  match strip_prefix "-Infinity" s with
  | Some r => Some (JFloat (S754_infinity true), r)
  | None => read_number s
  end end end end end end.

Fixpoint read_value (fuel : nat) (s : string) {struct fuel}
  : option (json * string) :=
  match fuel with
  | O => None
  | S fuel' =>
      match skip_ws s with
      | EmptyString => None
      | String c r =>
          if code c =? 123 then
            match skip_ws r with
            | String "}"%char r' => Some (JObj [], r')
            | _ =>
                match read_members fuel' r with
                | Some (members, r') => Some (JObj members, r')
                | None => None
                end
            end
          else if code c =? 91 then
            match skip_ws r with
            | String "]"%char r' => Some (JArr [], r')
            | _ =>
                match read_elements fuel' r with
                | Some (items, r') => Some (JArr items, r')
                | None => None
                end
            end
          else if Ascii.eqb c quote then
            match read_string r with
            | Some (str, r') => Some (JStr str, r')
            | None => None
            end
          else read_literal (String c r)
      end
  end
with read_elements (fuel : nat) (s : string) {struct fuel}
  : option (list json * string) :=
  match fuel with
  | O => None
  | S fuel' =>
      match read_value fuel' s with
      | Some (v, r) =>
          match skip_ws r with
          | String ","%char r' =>
              match read_elements fuel' r' with
              | Some (items, r'') => Some (v :: items, r'')
              | None => None
              end
          | String "]"%char r' => Some ([v], r')
          | _ => None
          end
      | None => None
      end
  end
with read_members (fuel : nat) (s : string) {struct fuel}
  : option (list (string * json) * string) :=
  match fuel with
  | O => None
  | S fuel' =>
      match skip_ws s with
      | String q r =>
          if Ascii.eqb q quote then
            match read_string r with
            | Some (key, r1) =>
                match skip_ws r1 with
                | String ":"%char r2 =>
                    match read_value fuel' r2 with
                    | Some (v, r3) =>
                        match skip_ws r3 with
                        | String ","%char r4 =>
                            match read_members fuel' r4 with
                            | Some (members, r5) => Some ((key, v) :: members, r5)
                            | None => None
                            end
                        | String "}"%char r4 => Some ([(key, v)], r4)
                        | _ => None
                        end
                    | None => None
                    end
                | _ => None
                end
            | None => None
            end
          else None
      | EmptyString => None
      end
  end.

(** One value, surrounded by white space only. *)
Definition loads (text : string) : option json :=
  match read_value (2 * String.length text + 4) text with
  | Some (v, rest) =>
      match skip_ws rest with
      | EmptyString => Some v
      | _ => None
      end
  | None => None
  end.

(** Numeric strings and booleans, as the lax mode coerces them. *)
Definition float_lax (j : json) : option PyFloat.t :=
  match j with
  | JBool b => Some (PyFloat.of_Z (if b then 1 else 0))
  | JStr s =>
      match read_number s with
      | Some (JInt n, EmptyString) => Some (PyFloat.of_Z n)
      | Some (JFloat x, EmptyString) => Some x
      | _ => None
      end
  | _ => None
  end.

Definition two_digits (s : string) : option (Z * string) :=
  match s with
  | String a (String b r) =>
      match digit a, digit b with
      | Some x, Some y => Some (10 * x + y, r)
      | _, _ => None
      end
  | _ => None
  end.

Definition expect (c : ascii) (s : string) : option string :=
  match s with
  | String c' r => if Ascii.eqb c c' then Some r else None
  | EmptyString => None
  end.

Definition is_leap (y : Z) : bool :=
  (y mod 4 =? 0) && (negb (y mod 100 =? 0) || (y mod 400 =? 0)).

Definition days_in_month (y m : Z) : Z :=
  if m =? 2 then (if is_leap y then 29 else 28)
  else if (m =? 4) || (m =? 6) || (m =? 9) || (m =? 11) then 30
  else 31.

(** Days from 1970-01-01 to the given day of the proleptic Gregorian
    calendar. *)
Definition days_from_civil (y m d : Z) : Z :=
  let y' := if m <=? 2 then y - 1 else y in
  let era := y' / 400 in
  let yoe := y' - era * 400 in
  let doy := (153 * ((m + 9) mod 12) + 2) / 5 + d - 1 in
  let doe := yoe * 365 + yoe / 4 - yoe / 100 + doy in
  era * 146097 + doe - 719468.

(** Nothing, [Z], or a numeric offset [+hh:mm] / [-hh:mm]. *)
Definition read_offset (s : string) : option (option Z) :=
  match s with
  | EmptyString => Some None
  | String c r =>
      if (code c =? 90) || (code c =? 122) then
        match r with
        | EmptyString => Some (Some 0)
        | _ => None
        end
      else if (code c =? 43) || (code c =? 45) then
        match two_digits r with
        | Some (hh, r1) =>
            match expect ":" r1 with
            | Some r2 =>
                match two_digits r2 with
                | Some (mm, EmptyString) =>
                    if (hh <=? 23) && (mm <=? 59)
                    then Some (Some ((if code c =? 45 then -1 else 1)
                                     * (hh * 3600 + mm * 60)))
                    else None
                | _ => None
                end
            | None => None
            end
        | None => None
        end
      else None
  end.

(** [YYYY-MM-DD], [T] or a space, [hh:mm:ss], an optional fraction of one
    to six digits, an optional offset. *)
Definition parse_datetime (s : string) : option datetime :=
  match two_digits s with
  | Some (century, s1) =>
  match two_digits s1 with
  | Some (yy, s2) =>
  match expect "-" s2 with
  | Some s3 =>
  match two_digits s3 with
  | Some (month, s4) =>
  match expect "-" s4 with
  | Some s5 =>
  match two_digits s5 with
  | Some (day, String sep s6) =>
  match two_digits s6 with
  | Some (hour, s7) =>
  match expect ":" s7 with
  | Some s8 =>
  match two_digits s8 with
  | Some (minute, s9) =>
  match expect ":" s9 with
  | Some s10 =>
  match two_digits s10 with
  | Some (second, s11) =>
      let year := century * 100 + yy in
      let '(micro, frac_ok, s12) :=
        match s11 with
        | String "."%char r =>
            let '(f, n, r') := read_digits r 0 0 in
            (f * 10 ^ (6 - n), (1 <=? n) && (n <=? 6), r')
        | _ => (0, true, s11)
        end in
      match read_offset s12 with
      | Some offset =>
          if ((code sep =? 84) || (code sep =? 116) || (code sep =? 32))
             && (1 <=? year) && (1 <=? month) && (month <=? 12)
             && (1 <=? day) && (day <=? days_in_month year month)
             && (hour <=? 23) && (minute <=? 59) && (second <=? 59)
             && frac_ok
          then
            let wall :=
              (days_from_civil year month day * 86400
               + hour * 3600 + minute * 60 + second) in
            let shift := match offset with Some o => o | None => 0 end in
            Some (mk_datetime ((wall - shift) * 1000000 + micro) offset)
          else None
      | None => None
      end
  | None => None end
  | None => None end
  | None => None end
  | None => None end
  | None => None end
  | _ => None end
  | None => None end
  | None => None end
  | None => None end
  | None => None end
  | None => None end.

Definition datetime_validator (j : json) : option datetime :=
  match j with
  | JStr s => parse_datetime s
  | _ => None
  end.

Definition is_lower (c : ascii) : bool := (97 <=? code c) && (code c <=? 122).
Definition is_upper (c : ascii) : bool := (65 <=? code c) && (code c <=? 90).
Definition is_digit (c : ascii) : bool := (48 <=? code c) && (code c <=? 57).

(** Dot-separated labels, each a lower-case letter followed by lower-case
    letters and digits. *)
Fixpoint host_ok (s : string) (label_start : bool) : bool :=
  match s with
  | EmptyString => negb label_start
  | String c r =>
      if label_start then is_lower c && host_ok r false
      else if code c =? 46 then host_ok r true
      else (is_lower c || is_digit c) && host_ok r false
  end.

Fixpoint path_ok (s : string) : bool :=
  match s with
  | EmptyString => true
  | String c r =>
      (is_lower c || is_upper c || is_digit c || (code c =? 47)
       || (code c =? 46) || (code c =? 45) || (code c =? 95) || (code c =? 126))
      && path_ok r
  end.

(** The part before the first slash, and the rest from that slash on. *)
Fixpoint split_slash (s : string) : string * string :=
  match s with
  | EmptyString => (EmptyString, EmptyString)
  | String c r =>
      if code c =? 47 then (EmptyString, s)
      else let '(a, b) := split_slash r in (String c a, b)
  end.

(** [scheme://host] or [scheme://host/path]; an empty path becomes [/]. *)
Definition parse_http_url (s : string) : option HttpUrl :=
  let after_scheme :=
    match strip_prefix "https://" s with
    | Some r => Some r
    | None => strip_prefix "http://" s
    end in
  match after_scheme with
  | Some r =>
      let '(host, path) := split_slash r in
      if host_ok host true && path_ok path
         && (Z.of_nat (String.length s) <=? 2083)
      then Some (mk_HttpUrl (match path with
                             | EmptyString => s ++ "/"
                             | _ => s
                             end))
      else None
  | None => None
  end.

Definition url_validator (j : json) : option HttpUrl :=
  match j with
  | JStr s => parse_http_url s
  | _ => None
  end.

End reference.

Definition reference_parsers : Parsers := {|
  json_loads := reference.loads;
  float_lax := reference.float_lax;
  datetime_validator := reference.datetime_validator;
  url_validator := reference.url_validator
|}.

(** ** Worked inputs *)

Module scenario.

(** JSON text written with apostrophes for its quotation marks. *)
Fixpoint dq (s : string) : string :=
  match s with
  | String c r =>
      String (if Ascii.eqb c "'"%char then reference.quote else c) (dq r)
  | EmptyString => EmptyString
  end.

Definition message (subject json_text : string) : consumer.Msg :=
  consumer.mk_msg subject (list_byte_of_string (dq json_text)).

(** The clock starts at 2024-01-01T00:00:10Z and advances a second per
    reading. *)
Definition clock (n : nat) : Z := (1704067210 + Z.of_nat n) * 1000000.

Definition uuid (n : nat) : string :=
  "00000000-0000-4000-8000-00000000000" ++ NilEmpty.string_of_uint (Nat.to_uint n).

Definition healthy : Env :=
  mk_env clock uuid (fun _ => false) (fun _ => None) (fun _ => None).

(** The database refuses the second transaction. *)
Definition second_commit_fails : Env :=
  mk_env clock uuid (Nat.eqb 1) (fun _ => None) (fun _ => None).

(** The database refuses every transaction. *)
Definition no_commit : Env :=
  mk_env clock uuid (fun _ => true) (fun _ => None) (fun _ => None).

(** The process before and after the import of the consumer module. *)
Definition blank : World := mk_world None None [] [] [] 0 0 0 [].

Definition fresh : World :=
  snd (consumer.on_import consumer.default_settings healthy blank).

(** The litter message of the end-to-end scenarios, with the given
    [duration_s] and [conf] literals, and the payload it validates to. *)
Definition litter_json (duration_s conf : string) : string :=
  ("{'pet_id':'p1', 'type':'use', 'ts':'2024-01-01T00:00:00Z', 'duration_s':"
   ++ duration_s ++ ", 'conf':" ++ conf ++ ", 'payload':{}}")%string.

Definition midnight : datetime := mk_datetime 1704067200000000 timezone_utc.

Definition litter_payload (duration_s conf : PyFloat.t)
  : models.LitterEventPayload.t :=
  models.LitterEventPayload.Build "p1" "use" midnight duration_s conf [].

Definition litter_members (duration_s conf : json) : list (string * json) :=
  [("pet_id", JStr "p1"); ("type", JStr "use");
   ("ts", JStr "2024-01-01T00:00:00Z"); ("duration_s", duration_s);
   ("conf", conf); ("payload", JObj [])].

(** The same message with empty [pet_id] and [type]. *)
Definition anonymous_json : string :=
  "{'pet_id':'', 'type':'', 'ts':'2024-01-01T00:00:00Z', 'duration_s':50, 'conf':0.9, 'payload':{}}".

Definition anonymous_members : list (string * json) :=
  [("pet_id", JStr ""); ("type", JStr "");
   ("ts", JStr "2024-01-01T00:00:00Z"); ("duration_s", JInt 50);
   ("conf", JFloat (PyFloat.of_decimal false 9 (-1))); ("payload", JObj [])].

Definition anonymous_payload : models.LitterEventPayload.t :=
  models.LitterEventPayload.Build "" "" midnight (PyFloat.of_Z 50)
    (PyFloat.of_decimal false 9 (-1)) [].

(** The same message without [payload]. *)
Definition no_payload_json : string :=
  "{'pet_id':'p1', 'type':'use', 'ts':'2024-01-01T00:00:00Z', 'duration_s':200, 'conf':0.1}".

Definition no_payload_members : list (string * json) :=
  [("pet_id", JStr "p1"); ("type", JStr "use");
   ("ts", JStr "2024-01-01T00:00:00Z"); ("duration_s", JInt 200);
   ("conf", JFloat (PyFloat.of_decimal false 1 (-1)))].

(** The same message with a key [zone], which is no field of either
    schema. *)
Definition zone_json : string :=
  "{'pet_id':'p1', 'type':'use', 'ts':'2024-01-01T00:00:00Z', 'duration_s':200, 'conf':0.1, 'payload':{}, 'zone':3}".

Definition zone_members : list (string * json) :=
  litter_members (JInt 200) (JFloat (PyFloat.of_decimal false 1 (-1)))
  ++ [("zone", JInt 3)].

Definition playroom_json : string :=
  ("{'pet_id':'p2', 'room_id':'r1', 'kind':'fight', 'severity':'high', "
   ++ "'state':'open', 'evidence_url':'https://x/e.mp4', "
   ++ "'ts':'2024-01-01T00:00:00Z'}")%string.

Definition playroom_payload : models.PlayroomAlertPayload.t :=
  models.PlayroomAlertPayload.Build "p2" "r1" "fight" "high" "open"
    (mk_HttpUrl "https://x/e.mp4") midnight.

Definition playroom_members : list (string * json) :=
  [("pet_id", JStr "p2"); ("room_id", JStr "r1"); ("kind", JStr "fight");
   ("severity", JStr "high"); ("state", JStr "open");
   ("evidence_url", JStr "https://x/e.mp4");
   ("ts", JStr "2024-01-01T00:00:00Z")].

(** The same alert with a URL that has no path. *)
Definition bare_url_json : string :=
  ("{'pet_id':'p2', 'room_id':'r1', 'kind':'fight', 'severity':'high', "
   ++ "'state':'open', 'evidence_url':'https://x', "
   ++ "'ts':'2024-01-01T00:00:00Z'}")%string.

Definition run_litter (env : Env) (subject json_text : string)
  : outcome unit * World :=
  @consumer.handle_litter_event reference_parsers consumer.default_settings
    (message subject json_text) env fresh.

Definition run_playroom (env : Env) (subject json_text : string)
  : outcome unit * World :=
  @consumer.handle_playroom_alert reference_parsers
    (message subject json_text) env fresh.

End scenario.

(** ** Vocabulary of the statements *)

(** The value of a JSON number literal of the 64-bit range. *)
Definition json_number (j : json) : option PyFloat.t :=
  match j with
  | JFloat x => Some x
  | JInt n =>
      if ((- 2 ^ 63 <=? n) && (n <? 2 ^ 63))%Z then Some (PyFloat.of_Z n)
      else None
  | _ => None
  end.

(** A wire object that spells the payload [p]: the six fields, each once
    and of its JSON type, and no other key.  The keys are pairwise
    distinct, so which occurrence a field is read from is not in question. *)
Definition spells_litter `{Parsers} (obj : list (string * json))
    (p : models.LitterEventPayload.t) : Prop :=
  NoDup (map fst obj)
  /\ models.lookup "pet_id" obj = Some (JStr (models.LitterEventPayload.pet_id p))
  /\ models.lookup "type" obj = Some (JStr (models.LitterEventPayload.type p))
  /\ (exists j, models.lookup "ts" obj = Some j
                /\ datetime_validator j = Some (models.LitterEventPayload.ts p))
  /\ (exists j, models.lookup "duration_s" obj = Some j
                /\ json_number j = Some (models.LitterEventPayload.duration_s p))
  /\ (exists j, models.lookup "conf" obj = Some j
                /\ json_number j = Some (models.LitterEventPayload.conf p))
  /\ models.lookup "payload" obj = Some (JObj (models.LitterEventPayload.payload p))
  /\ (forall key, In key (map fst obj) ->
                  In key models.LitterEventPayload.model_fields).

(** A wire object that spells the playroom payload [p]: the five strings
    as sent, and for [evidence_url] and [ts] what their validators make of
    the values sent. *)
Definition spells_playroom `{Parsers} (obj : list (string * json))
    (p : models.PlayroomAlertPayload.t) : Prop :=
  NoDup (map fst obj)
  /\ models.lookup "pet_id" obj
     = Some (JStr (models.PlayroomAlertPayload.pet_id p))
  /\ models.lookup "room_id" obj
     = Some (JStr (models.PlayroomAlertPayload.room_id p))
  /\ models.lookup "kind" obj
     = Some (JStr (models.PlayroomAlertPayload.kind p))
  /\ models.lookup "severity" obj
     = Some (JStr (models.PlayroomAlertPayload.severity p))
  /\ models.lookup "state" obj
     = Some (JStr (models.PlayroomAlertPayload.state p))
  /\ (exists j, models.lookup "evidence_url" obj = Some j
                /\ url_validator j
                   = Some (models.PlayroomAlertPayload.evidence_url p))
  /\ (exists j, models.lookup "ts" obj = Some j
                /\ datetime_validator j
                   = Some (models.PlayroomAlertPayload.ts p))
  /\ (forall key, In key (map fst obj) ->
                  In key models.PlayroomAlertPayload.model_fields).

Definition invalid_litter (errors : list models.ErrorDetails) : LogRecord :=
  mk_log ERROR "Invalid litter event received: %s"
         [arg_exc (ValidationError errors)].

Definition invalid_playroom (errors : list models.ErrorDetails) : LogRecord :=
  mk_log ERROR "Invalid playroom alert received: %s"
         [arg_exc (ValidationError errors)].

Definition received_litter (msg : consumer.Msg)
    (payload : models.LitterEventPayload.t) : LogRecord :=
  mk_log INFO "Received litter event on %s for pet %s"
         [arg_str (consumer.subject msg);
          arg_str (models.LitterEventPayload.pet_id payload)].

Definition received_playroom (payload : models.PlayroomAlertPayload.t)
  : LogRecord :=
  mk_log INFO "Received playroom alert for room %s"
         [arg_str (models.PlayroomAlertPayload.room_id payload)].

(** The [n]-th reading of the clock, as [_utcnow] returns it. *)
Definition reading (env : Env) (n : nat) : datetime :=
  mk_datetime (utc_clock env n) timezone_utc.

(** The row a litter message leaves in [events]. *)
Definition event_row (env : Env) (w : World) (msg : consumer.Msg)
    (payload : models.LitterEventPayload.t) : EventRecordORM.t :=
  EventRecordORM.Build
    (Some (uuid4 env (uuids_drawn w)))
    (consumer.subject msg)
    (models.LitterEventPayload.pet_id payload)
    (models.LitterEventPayload.type payload)
    (models.LitterEventPayload.ts payload)
    (Some (models.LitterEventPayload.duration_s payload))
    (Some (models.LitterEventPayload.conf payload))
    (models.LitterEventPayload.payload payload)
    (Some (reading env (clock_reads w))).

(** The row the anomaly rule leaves in [alerts]. *)
Definition anomaly_row (env : Env) (w : World)
    (payload : models.LitterEventPayload.t) (severity : string)
  : AlertRecord.t :=
  AlertRecord.Build
    (Some (uuid4 env (S (uuids_drawn w))))
    (models.LitterEventPayload.pet_id payload)
    None "litter-anomaly" severity "open" None
    (reading env (S (clock_reads w)))
    (Some (reading env (S (S (clock_reads w))))).

(** The row a playroom message leaves in [alerts]. *)
Definition playroom_row (env : Env) (w : World)
    (payload : models.PlayroomAlertPayload.t) : AlertRecord.t :=
  AlertRecord.Build
    (Some (uuid4 env (uuids_drawn w)))
    (models.PlayroomAlertPayload.pet_id payload)
    (Some (models.PlayroomAlertPayload.room_id payload))
    (models.PlayroomAlertPayload.kind payload)
    (models.PlayroomAlertPayload.severity payload)
    (models.PlayroomAlertPayload.state payload)
    (Some (url_str (models.PlayroomAlertPayload.evidence_url payload)))
    (models.PlayroomAlertPayload.ts payload)
    (Some (reading env (clock_reads w))).

(** How the playroom handler ends once the row is stored: the response
    [record_playroom_alert] builds parses the stored [evidence_url] again. *)
Definition read_back `{Parsers} (payload : models.PlayroomAlertPayload.t)
  : outcome unit :=
  match url_validator
          (JStr (url_str (models.PlayroomAlertPayload.evidence_url payload)))
  with
  | Some _ => Return tt
  | None => Raise (ValidationError [models.mk_error "url_type" ["evidence_url"]])
  end.

(** Running a handler: the expected result is set aside, the handler is
    evaluated with the hypotheses about the message and the state, and the
    two are compared at the end. *)
Ltac aside :=
  match goal with
  | |- _ = ?rhs =>
      let e := fresh "expected" in
      let He := fresh "Hexpected" in
      remember rhs as e eqn:He; symmetry in He
  end.

Ltac run := cbn; repeat (match goal with
  | E : ?x = _ |- context [?x] => rewrite E; cbn
  end).

Ltac settle := subst; reflexivity.

(** ** The subscriptions of [main] *)

(** NATS subjects: tokens separated by full stops; in a pattern [*]
    stands for one token and a final [>] for one or more. *)
Module nats.

Fixpoint split (s current : string) : list string :=
  match s with
  | EmptyString => [current]
  | String c r =>
      if Ascii.eqb c "."%char then current :: split r EmptyString
      else split r (current ++ String c EmptyString)
  end.

Definition tokens (s : string) : list string := split s EmptyString.

Definition nonempty (token : string) : bool :=
  match token with
  | EmptyString => false
  | String _ _ => true
  end.

Fixpoint match_tokens (pattern subject : list string) : bool :=
  match pattern, subject with
  | [], [] => true
  | p :: ps, t :: ts =>
      if String.eqb p ">" then
        match ps with
        | [] => forallb nonempty (t :: ts)
        | _ => false
        end
      else if String.eqb p "*" then nonempty t && match_tokens ps ts
      else String.eqb p t && match_tokens ps ts
  | _, _ => false
  end.

Definition matches (pattern subject : string) : bool :=
  match_tokens (tokens pattern) (tokens subject).

End nats.

Module bus.

(** The two routes [main] subscribes. *)
Inductive route : Type := litter | playroom.

Definition pattern (r : route) : string :=
  match r with
  | litter => "events.litter.*"
  | playroom => "playroom.alerts.*"
  end.

(** The routes a subject is delivered on. *)
Definition routes_of (subject : string) : list route :=
  filter (fun r => nats.matches (pattern r) subject) [litter; playroom].

Section main.
Context `{Parsers}.
Variable SETTINGS : consumer.EdgeSettings.

Definition callback (r : route) : consumer.Msg -> M unit :=
  match r with
  | litter => consumer.handle_litter_event SETTINGS
  | playroom => consumer.handle_playroom_alert
  end.

(** Callbacks run one after the other, each from the state the one before
    left, whether it returned or raised; the outcomes are kept in order. *)
Fixpoint deliveries (ds : list (route * consumer.Msg)) (env : Env) (w : World)
  : list (outcome unit) * World :=
  match ds with
  | [] => ([], w)
  | (r, msg) :: rest =>
      let '(o, w1) := callback r msg env w in
      let '(os, w2) := deliveries rest env w1 in
      (o :: os, w2)
  end.

End main.

End bus.

(** ** api/main.py *)

Module main.

(** [models.SearchCandidate] *)
Inductive band : Type := strong | moderate | weak.

Record SearchCandidate : Type := mk_candidate {
  candidate_pet_id : string;
  candidate_score : PyFloat.t;
  candidate_band : band
}.

(** [models.SearchRequest] after validation:
    [top_k: Optional[int] = Field(10, ge=1)]. *)
Record SearchRequest : Type := mk_request {
  case_id : string;
  top_k : option Z
}.

(** The constraint [ge=1] bears on an int, not on [None]. *)
Definition top_k_valid (request : SearchRequest) : bool :=
  match top_k request with
  | None => true
  | Some k => (1 <=? k)%Z
  end.

Record HTTPException : Type := mk_http {
  status_code : Z;
  detail : string
}.

(** [a or b] for an optional int [a]: [None] and [0] are falsy. *)
Definition or_else (a : option Z) (b : Z) : Z :=
  match a with
  | None => b
  | Some k => if (k =? 0)%Z then b else k
  end.

(** [l[:k]] *)
Definition slice_to {A : Type} (l : list A) (k : Z) : list A :=
  if (k <? 0)%Z then firstn (List.length l - Z.to_nat (- k)) l
  else firstn (Z.to_nat k) l.

(** [search], given what [database.load_search_candidates] returned. *)
Definition search (candidates : list SearchCandidate)
    (request : SearchRequest) : HTTPException + list SearchCandidate :=
  let k := or_else (top_k request) (Z.of_nat (List.length candidates)) in
  if (k <=? 0)%Z then inl (mk_http 422 "top_k must be positive")
  else inr (slice_to candidates k).

End main.

(** ** More vocabulary *)

(** What the process wrote of a row: the row without the two column
    defaults. *)
Definition event_core (row : EventRecordORM.t) : EventRecordORM.t :=
  EventRecordORM.Build None
    (EventRecordORM.source row) (EventRecordORM.pet_id row)
    (EventRecordORM.type row) (EventRecordORM.ts row)
    (EventRecordORM.duration_s row) (EventRecordORM.conf row)
    (EventRecordORM.payload_json row) None.

Definition alert_core (row : AlertRecord.t) : AlertRecord.t :=
  AlertRecord.Build None
    (AlertRecord.pet_id row) (AlertRecord.room_id row) (AlertRecord.kind row)
    (AlertRecord.severity row) (AlertRecord.state row)
    (AlertRecord.evidence_url row) (AlertRecord.ts row) None.

Fixpoint events_of (objs : list orm_object) : list EventRecordORM.t :=
  match objs with
  | [] => []
  | orm_event r :: rest => r :: events_of rest
  | orm_alert _ :: rest => events_of rest
  end.

Fixpoint alerts_of (objs : list orm_object) : list AlertRecord.t :=
  match objs with
  | [] => []
  | orm_event _ :: rest => alerts_of rest
  | orm_alert r :: rest => r :: alerts_of rest
  end.

(** A stored row has its [id] and its [created_at]. *)
Definition event_stamped (row : EventRecordORM.t) : bool :=
  match EventRecordORM.id row, EventRecordORM.created_at row with
  | Some _, Some _ => true
  | _, _ => false
  end.

Definition alert_stamped (row : AlertRecord.t) : bool :=
  match AlertRecord.id row, AlertRecord.created_at row with
  | Some _, Some _ => true
  | _, _ => false
  end.

Definition stamped (w : World) : Prop :=
  forallb event_stamped (events w) = true
  /\ forallb alert_stamped (alerts w) = true.


Definition litter_route (d : bus.route * consumer.Msg) : bool :=
  match fst d with
  | bus.litter => true
  | bus.playroom => false
  end.

(** A token: not empty and free of full stops. *)
Fixpoint free_of_stops (s : string) : bool :=
  match s with
  | EmptyString => true
  | String c r => negb (Ascii.eqb c "."%char) && free_of_stops r
  end.

Definition is_token (t : string) : bool := nats.nonempty t && free_of_stops t.

(** Tokens joined by full stops. *)
Fixpoint join (toks : list string) : string :=
  match toks with
  | [] => EmptyString
  | t :: rest =>
      match rest with
      | [] => t
      | _ => t ++ String "."%char (join rest)
      end
  end.

(** ** Comparison of floats *)

Lemma SFcompare_antisym (x y : spec_float) :
  SFcompare y x = option_map CompOpp (SFcompare x y).
Proof.
  destruct x as [sx|sx| |sx mx ex], y as [sy|sy| |sy my ey]; simpl;
    try destruct sx; try destruct sy; try reflexivity.
  - rewrite (Z.compare_antisym ey ex).
    destruct (ey ?= ex)%Z; simpl; try reflexivity.
    rewrite (Pos.compare_cont_antisym mx my Eq); simpl.
    destruct (Pos.compare_cont Eq mx my); reflexivity.
  - rewrite (Z.compare_antisym ey ex).
    destruct (ey ?= ex)%Z; simpl; try reflexivity.
    rewrite (Pos.compare_cont_antisym mx my Eq); simpl.
    destruct (Pos.compare_cont Eq mx my); reflexivity.
Qed.

(** [x <= y] excludes [x > y]; with [x] and [y] swapped, [x >= y]
    excludes [x < y]. *)
Lemma le_not_gt (x y : PyFloat.t) :
  PyFloat.le x y = true -> PyFloat.gt x y = false.
Proof.
  unfold PyFloat.le, PyFloat.gt, SFleb, SFltb.
  rewrite (SFcompare_antisym x y).
  destruct (SFcompare x y) as [[ | | ]|]; simpl; congruence.
Qed.

Lemma ge_not_lt (x y : PyFloat.t) :
  PyFloat.ge x y = true -> PyFloat.lt x y = false.
Proof. exact (le_not_gt y x). Qed.

(** NaN compares false both ways, so the two tests do not exhaust. *)
Example nan_neither (y : PyFloat.t) :
  PyFloat.lt S754_nan y = false /\ PyFloat.ge S754_nan y = false.
Proof. split; destruct y; reflexivity. Qed.

(** ** Schema validation *)

Section validation.
Context `{Parsers}.

Lemma declared_In (model_fields : list string) (key : string) :
  models.declared model_fields key = true <-> In key model_fields.
Proof.
  unfold models.declared. rewrite existsb_exists. split.
  - intros [k [Hin Heq]]. apply String.eqb_eq in Heq. now subst.
  - intros Hin. exists key. split; [assumption | apply String.eqb_refl].
Qed.

Lemma lookup_None (key : string) (obj : list (string * json)) :
  models.lookup key obj = None <-> ~ In key (map fst obj).
Proof.
  induction obj as [|[k v] rest IH]; simpl.
  - tauto.
  - destruct (String.eqb_spec k key) as [->|Hne].
    + split; [discriminate | intros Hn; exfalso; apply Hn; now left].
    + rewrite IH. tauto.
Qed.

(** A key outside the schema yields an [extra_forbidden] line; a message
    whose keys are all declared yields none. *)
Lemma extra_forbidden_In (model_fields : list string)
    (obj : list (string * json)) (key : string) :
  In key (map fst obj) -> ~ In key model_fields ->
  In (models.mk_error "extra_forbidden" [key])
     (models.extra_forbidden model_fields obj).
Proof.
  intros Hin Hnot. apply in_map_iff in Hin. destruct Hin as [[k v] [Hk Hkv]].
  simpl in Hk. subst k. unfold models.extra_forbidden.
  apply in_map_iff. exists (key, v). split; [reflexivity |].
  apply filter_In. split; [assumption |]. simpl.
  destruct (models.declared model_fields key) eqn:E; [| reflexivity].
  apply declared_In in E. contradiction.
Qed.

Lemma extra_forbidden_nil (model_fields : list string)
    (obj : list (string * json)) :
  (forall key, In key (map fst obj) -> In key model_fields) ->
  models.extra_forbidden model_fields obj = [].
Proof.
  intros Hall. unfold models.extra_forbidden.
  induction obj as [|[k v] rest IH]; simpl; [reflexivity |].
  assert (Hk : models.declared model_fields k = true).
  { apply declared_In. apply Hall. now left. }
  rewrite Hk. simpl. apply IH. intros key Hin. apply Hall. now right.
Qed.

Lemma field_missing {A : Type} (obj : list (string * json)) (name : string)
    (validator : json -> option A) (error_type : string) :
  models.lookup name obj = None ->
  models.field obj name validator error_type
  = inl (models.mk_error "missing" [name]).
Proof. intros Hl. unfold models.field. now rewrite Hl. Qed.

Lemma field_valid {A : Type} (obj : list (string * json)) (name : string)
    (validator : json -> option A) (error_type : string) (j : json) (a : A) :
  models.lookup name obj = Some j -> validator j = Some a ->
  models.field obj name validator error_type = inr a.
Proof. intros Hl Hv. unfold models.field. now rewrite Hl, Hv. Qed.

(** Whatever the fields hold, one extra key fails the litter schema. *)
Lemma litter_extra_rejected (obj : list (string * json))
    (e : models.ErrorDetails) :
  In e (models.extra_forbidden models.LitterEventPayload.model_fields obj) ->
  exists errors,
    models.LitterEventPayload.model_validate (JObj obj) = inl errors
    /\ In e errors.
Proof.
  intros Hin. unfold models.LitterEventPayload.model_validate. cbv zeta.
  destruct (models.extra_forbidden _ obj) as [|e0 extra] eqn:Ex;
    [contradiction |].
  destruct (models.field obj "pet_id" _ _), (models.field obj "type" _ _),
    (models.field obj "ts" _ _), (models.field obj "duration_s" _ _),
    (models.field obj "conf" _ _), (models.field obj "payload" _ _);
    eexists; (split; [reflexivity |]);
    repeat (apply in_or_app; right); exact Hin.
Qed.

Lemma playroom_extra_rejected (obj : list (string * json))
    (e : models.ErrorDetails) :
  In e (models.extra_forbidden models.PlayroomAlertPayload.model_fields obj) ->
  exists errors,
    models.PlayroomAlertPayload.model_validate (JObj obj) = inl errors
    /\ In e errors.
Proof.
  intros Hin. unfold models.PlayroomAlertPayload.model_validate. cbv zeta.
  destruct (models.extra_forbidden _ obj) as [|e0 extra] eqn:Ex;
    [contradiction |].
  destruct (models.field obj "pet_id" _ _), (models.field obj "room_id" _ _),
    (models.field obj "kind" _ _), (models.field obj "severity" _ _),
    (models.field obj "state" _ _), (models.field obj "evidence_url" _ _),
    (models.field obj "ts" _ _);
    eexists; (split; [reflexivity |]);
    repeat (apply in_or_app; right); exact Hin.
Qed.

(** A litter message without [payload] fails, whatever else it holds. *)
Lemma litter_payload_required (obj : list (string * json)) :
  models.lookup "payload" obj = None ->
  exists errors,
    models.LitterEventPayload.model_validate (JObj obj) = inl errors
    /\ In (models.mk_error "missing" ["payload"]) errors.
Proof.
  intros Hl. unfold models.LitterEventPayload.model_validate. cbv zeta.
  rewrite (field_missing obj "payload" models.dict_validator "dict_type" Hl).
  destruct (models.field obj "pet_id" _ _), (models.field obj "type" _ _),
    (models.field obj "ts" _ _), (models.field obj "duration_s" _ _),
    (models.field obj "conf" _ _);
    eexists; (split; [reflexivity |]);
    do 5 (apply in_or_app; right); apply in_or_app; left; simpl; now left.
Qed.

(** The value of a JSON number literal of the 64-bit range. *)
Lemma float_validator_number (j : json) (x : PyFloat.t) :
  (j = JFloat x
   \/ exists n, j = JInt n /\ (- 2 ^ 63 <= n < 2 ^ 63)%Z /\ x = PyFloat.of_Z n) ->
  models.float_validator j = Some x.
Proof.
  intros [-> | [n [-> [Hn ->]]]]; [reflexivity |].
  assert (E : ((- 2 ^ 63 <=? n) && (n <? 2 ^ 63))%Z = true).
  { apply andb_true_intro. split; [apply Z.leb_le | apply Z.ltb_lt]; lia. }
  unfold models.float_validator. now rewrite E.
Qed.

(** A message with the six fields, each of its type, and no other key is
    accepted, and the payload holds the values as sent. *)
Lemma litter_well_formed_accepted (obj : list (string * json))
    (pet_id type : string) (ts_json : json) (ts : datetime)
    (duration_json conf_json : json) (duration_s conf : PyFloat.t)
    (payload : list (string * json)) :
  models.lookup "pet_id" obj = Some (JStr pet_id) ->
  models.lookup "type" obj = Some (JStr type) ->
  models.lookup "ts" obj = Some ts_json ->
  datetime_validator ts_json = Some ts ->
  models.lookup "duration_s" obj = Some duration_json ->
  models.float_validator duration_json = Some duration_s ->
  models.lookup "conf" obj = Some conf_json ->
  models.float_validator conf_json = Some conf ->
  models.lookup "payload" obj = Some (JObj payload) ->
  (forall key, In key (map fst obj) ->
               In key models.LitterEventPayload.model_fields) ->
  models.LitterEventPayload.model_validate (JObj obj)
  = inr (models.LitterEventPayload.Build pet_id type ts duration_s conf payload).
Proof.
  intros H1 H2 H3 V3 H4 V4 H5 V5 H6 Hkeys.
  unfold models.LitterEventPayload.model_validate. cbv zeta.
  rewrite (field_valid obj "pet_id" models.str_validator _ _ pet_id H1 eq_refl).
  rewrite (field_valid obj "type" models.str_validator _ _ type H2 eq_refl).
  rewrite (field_valid obj "ts" datetime_validator _ _ ts H3 V3).
  rewrite (field_valid obj "duration_s" models.float_validator _ _ _ H4 V4).
  rewrite (field_valid obj "conf" models.float_validator _ _ _ H5 V5).
  rewrite (field_valid obj "payload" models.dict_validator _ _ payload H6 eq_refl).
  rewrite (extra_forbidden_nil _ obj Hkeys). reflexivity.
Qed.

End validation.

(** ** The handlers, case by case *)

Section handler_runs.
Context `{Parsers}.
Variable SETTINGS : consumer.EdgeSettings.

Lemma litter_undecodable (msg : consumer.Msg) (env : Env) (w : World) :
  utf8.decode (consumer.data msg) = None ->
  consumer.handle_litter_event SETTINGS msg env w = (Raise UnicodeDecodeError, w).
Proof.
  intros Hd. aside. unfold consumer.handle_litter_event, consumer.decode. run.
  settle.
Qed.

Lemma litter_invalid (msg : consumer.Msg) (text : string)
    (errors : list models.ErrorDetails) (env : Env) (w : World) :
  utf8.decode (consumer.data msg) = Some text ->
  models.LitterEventPayload.model_validate_json text = inl errors ->
  consumer.handle_litter_event SETTINGS msg env w
  = (Return tt, add_log (invalid_litter errors) w).
Proof.
  intros Hd Hv. aside. unfold consumer.handle_litter_event, consumer.decode. run.
  settle.
Qed.

Lemma litter_unconfigured (msg : consumer.Msg) (text : string)
    (payload : models.LitterEventPayload.t) (env : Env) (w : World) :
  utf8.decode (consumer.data msg) = Some text ->
  models.LitterEventPayload.model_validate_json text = inr payload ->
  _SessionFactory w = None ->
  consumer.handle_litter_event SETTINGS msg env w
  = (Raise (RuntimeError "Database has not been configured"),
     add_log (received_litter msg payload) w).
Proof.
  intros Hd Hv Hf. aside. unfold consumer.handle_litter_event, consumer.decode. run.
  settle.
Qed.

(** A valid litter message in a configured process: the event is
    committed first; the rule then decides on an alert, which opens a
    second transaction. *)
Lemma litter_valid (msg : consumer.Msg) (text : string)
    (payload : models.LitterEventPayload.t) (env : Env) (w : World)
    (url : string) :
  utf8.decode (consumer.data msg) = Some text ->
  models.LitterEventPayload.model_validate_json text = inr payload ->
  _SessionFactory w = Some url ->
  let duration_breach :=
    PyFloat.gt (models.LitterEventPayload.duration_s payload)
               (consumer.litter_duration_threshold SETTINGS) in
  let confidence_breach :=
    PyFloat.lt (models.LitterEventPayload.conf payload)
               (consumer.litter_conf_threshold SETTINGS) in
  let logged := log w ++ [received_litter msg payload] in
  let stored := events w ++ [event_row env w msg payload] in
  consumer.handle_litter_event SETTINGS msg env w
  = if commit_fails env (commits w) then
      (Raise SQLAlchemyError,
       mk_world (_engine w) (_SessionFactory w) (events w) (alerts w) []
                (S (clock_reads w)) (S (uuids_drawn w)) (S (commits w)) logged)
    else if duration_breach || confidence_breach then
      let severity := if confidence_breach then "high" else "moderate" in
      if commit_fails env (S (commits w)) then
        (Raise SQLAlchemyError,
         mk_world (_engine w) (_SessionFactory w) stored (alerts w) []
                  (S (S (S (clock_reads w)))) (S (S (uuids_drawn w)))
                  (S (S (commits w))) logged)
      else
        (Return tt,
         mk_world (_engine w) (_SessionFactory w) stored
                  (alerts w ++ [anomaly_row env w payload severity]) []
                  (S (S (S (clock_reads w)))) (S (S (uuids_drawn w)))
                  (S (S (commits w))) logged)
    else
      (Return tt,
       mk_world (_engine w) (_SessionFactory w) stored (alerts w) []
                (S (clock_reads w)) (S (uuids_drawn w)) (S (commits w)) logged).
Proof.
  intros Hd Hv Hf. cbv zeta. aside.
  unfold consumer.handle_litter_event, consumer.decode. run.
  destruct (commit_fails env (commits w)); cbn; [settle |].
  destruct (PyFloat.gt _ _ || PyFloat.lt _ _); cbn; [| settle].
  destruct (commit_fails env (S (commits w))); cbn; settle.
Qed.

Lemma playroom_undecodable (msg : consumer.Msg) (env : Env) (w : World) :
  utf8.decode (consumer.data msg) = None ->
  consumer.handle_playroom_alert msg env w = (Raise UnicodeDecodeError, w).
Proof.
  intros Hd. aside. unfold consumer.handle_playroom_alert, consumer.decode. run.
  settle.
Qed.

Lemma playroom_invalid (msg : consumer.Msg) (text : string)
    (errors : list models.ErrorDetails) (env : Env) (w : World) :
  utf8.decode (consumer.data msg) = Some text ->
  models.PlayroomAlertPayload.model_validate_json text = inl errors ->
  consumer.handle_playroom_alert msg env w
  = (Return tt, add_log (invalid_playroom errors) w).
Proof.
  intros Hd Hv. aside. unfold consumer.handle_playroom_alert, consumer.decode. run.
  settle.
Qed.

(** A valid playroom message in a configured process: one transaction
    holding one row. *)
Lemma playroom_valid (msg : consumer.Msg) (text : string)
    (payload : models.PlayroomAlertPayload.t) (env : Env) (w : World)
    (url : string) :
  utf8.decode (consumer.data msg) = Some text ->
  models.PlayroomAlertPayload.model_validate_json text = inr payload ->
  _SessionFactory w = Some url ->
  let logged := log w ++ [received_playroom payload] in
  consumer.handle_playroom_alert msg env w
  = if commit_fails env (commits w) then
      (Raise SQLAlchemyError,
       mk_world (_engine w) (_SessionFactory w) (events w) (alerts w) []
                (S (clock_reads w)) (S (uuids_drawn w)) (S (commits w)) logged)
    else
      (read_back payload,
       mk_world (_engine w) (_SessionFactory w) (events w)
                (alerts w ++ [playroom_row env w payload]) []
                (S (clock_reads w)) (S (uuids_drawn w)) (S (commits w)) logged).
Proof.
  intros Hd Hv Hf. cbv zeta. unfold read_back.
  destruct (url_validator _) as [again|] eqn:Hu; aside;
    unfold consumer.handle_playroom_alert, consumer.decode; run;
    destruct (commit_fails env (commits w)); cbn; rewrite ?Hu; cbn; settle.
Qed.

(** The import configures the process when [create_engine] accepts the
    URL, and no handler undoes it: the session factory a handler finds is
    the one set at import. *)
Lemma on_import_configures (env : Env) (w : World) :
  _engine w = None ->
  create_engine_raises env (consumer.database_url SETTINGS) = None ->
  _SessionFactory (snd (consumer.on_import SETTINGS env w))
  = Some (consumer.database_url SETTINGS).
Proof.
  intros He Hc. unfold consumer.on_import, database.configure. cbn.
  rewrite He, Hc.
  destruct (create_all_raises env (consumer.database_url SETTINGS));
    reflexivity.
Qed.

Lemma litter_keeps_factory (msg : consumer.Msg) (env : Env) (w : World) :
  _SessionFactory (snd (consumer.handle_litter_event SETTINGS msg env w))
  = _SessionFactory w.
Proof.
  destruct (utf8.decode (consumer.data msg)) as [text|] eqn:Hd;
    [| now rewrite (litter_undecodable msg env w Hd)].
  destruct (models.LitterEventPayload.model_validate_json text)
    as [errors|payload] eqn:Hv;
    [now rewrite (litter_invalid msg text errors env w Hd Hv) |].
  destruct (_SessionFactory w) as [url|] eqn:Hf;
    [| now rewrite (litter_unconfigured msg text payload env w Hd Hv Hf)].
  rewrite (litter_valid msg text payload env w url Hd Hv Hf).
  destruct (commit_fails env (commits w)); [assumption |].
  destruct (PyFloat.gt _ _ || PyFloat.lt _ _); [| assumption].
  destruct (commit_fails env (S (commits w))); assumption.
Qed.

End handler_runs.

(** ** The anomaly rule *)

(** C1.  For a validated litter event and thresholds [td] (duration) and
    [tc] (confidence), in a configured process whose database accepts the
    transactions: when [conf < tc] the handler stores exactly one new
    alert, of severity "high", whatever the duration; when [conf >= tc] and
    [duration_s > td] it stores exactly one, of severity "moderate"; when
    [conf >= tc] and [duration_s <= td] it stores none. *)
Theorem litter_severity_policy `{Parsers} (SETTINGS : consumer.EdgeSettings)
    (msg : consumer.Msg) (text : string)
    (payload : models.LitterEventPayload.t) (env : Env) (w : World)
    (url : string) :
  utf8.decode (consumer.data msg) = Some text ->
  models.LitterEventPayload.model_validate_json text = inr payload ->
  _SessionFactory w = Some url ->
  commit_fails env (commits w) = false ->
  commit_fails env (S (commits w)) = false ->
  let conf := models.LitterEventPayload.conf payload in
  let duration_s := models.LitterEventPayload.duration_s payload in
  let tc := consumer.litter_conf_threshold SETTINGS in
  let td := consumer.litter_duration_threshold SETTINGS in
  let w' := snd (consumer.handle_litter_event SETTINGS msg env w) in
  (PyFloat.lt conf tc = true ->
     exists a, alerts w' = alerts w ++ [a]
               /\ AlertRecord.severity a = "high")
  /\ (PyFloat.ge conf tc = true -> PyFloat.gt duration_s td = true ->
     exists a, alerts w' = alerts w ++ [a]
               /\ AlertRecord.severity a = "moderate")
  /\ (PyFloat.ge conf tc = true -> PyFloat.le duration_s td = true ->
     alerts w' = alerts w).
Proof.
  intros Hd Hv Hf Hc1 Hc2 conf duration_s tc td w'. subst w'.
  rewrite (litter_valid SETTINGS msg text payload env w url Hd Hv Hf).
  rewrite Hc1, Hc2. fold conf duration_s tc td.
  split; [| split].
  - intros Hlt. rewrite Hlt, orb_true_r. simpl.
    eexists. split; reflexivity.
  - intros Hge Hgt. rewrite (ge_not_lt conf tc Hge), Hgt. simpl.
    eexists. split; reflexivity.
  - intros Hge Hle.
    rewrite (ge_not_lt conf tc Hge), (le_not_gt duration_s td Hle).
    reflexivity.
Qed.

(** The three end-to-end litter scenarios under the default thresholds
    0.4 and 180: (200 s, 0.1) is high, (200 s, 0.9) is moderate, and
    (50 s, 0.9) raises no alert. *)
Lemma litter_severity_policy_witness :
  (exists a,
      alerts (snd (scenario.run_litter scenario.healthy "events.litter.device1"
                     (scenario.litter_json "200" "0.1"))) = [a]
      /\ AlertRecord.severity a = "high")
  /\ (exists a,
      alerts (snd (scenario.run_litter scenario.healthy "events.litter.device1"
                     (scenario.litter_json "200" "0.9"))) = [a]
      /\ AlertRecord.severity a = "moderate")
  /\ alerts (snd (scenario.run_litter scenario.healthy "events.litter.device1"
                    (scenario.litter_json "50" "0.9"))) = [].
Proof.
  split; [| split].
  - apply (@litter_severity_policy reference_parsers consumer.default_settings
             (scenario.message "events.litter.device1"
                (scenario.litter_json "200" "0.1"))
             (scenario.dq (scenario.litter_json "200" "0.1"))
             (scenario.litter_payload (PyFloat.of_Z 200)
                (PyFloat.of_decimal false 1 (-1)))
             scenario.healthy scenario.fresh "sqlite:///./pets.db");
      vm_compute; reflexivity.
  - apply (@litter_severity_policy reference_parsers consumer.default_settings
             (scenario.message "events.litter.device1"
                (scenario.litter_json "200" "0.9"))
             (scenario.dq (scenario.litter_json "200" "0.9"))
             (scenario.litter_payload (PyFloat.of_Z 200)
                (PyFloat.of_decimal false 9 (-1)))
             scenario.healthy scenario.fresh "sqlite:///./pets.db");
      vm_compute; reflexivity.
  - apply (@litter_severity_policy reference_parsers consumer.default_settings
             (scenario.message "events.litter.device1"
                (scenario.litter_json "50" "0.9"))
             (scenario.dq (scenario.litter_json "50" "0.9"))
             (scenario.litter_payload (PyFloat.of_Z 50)
                (PyFloat.of_decimal false 9 (-1)))
             scenario.healthy scenario.fresh "sqlite:///./pets.db");
      vm_compute; reflexivity.
Defined.

(** ** What the litter schema accepts *)

Section litter_schema.
Context `{Parsers}.
Variable SETTINGS : consumer.EdgeSettings.

Lemma json_number_valid (j : json) (x : PyFloat.t) :
  json_number j = Some x -> models.float_validator j = Some x.
Proof.
  unfold json_number, models.float_validator.
  destruct j; try discriminate; [| tauto].
  destruct ((- 2 ^ 63 <=? n) && (n <? 2 ^ 63))%Z; [tauto | discriminate].
Qed.

Lemma spelled_validates (text : string) (obj : list (string * json))
    (p : models.LitterEventPayload.t) :
  json_loads text = Some (JObj obj) -> spells_litter obj p ->
  models.LitterEventPayload.model_validate_json text = inr p.
Proof.
  intros Hl (_ & H1 & H2 & (jt & H3 & V3) & (jd & H4 & V4) & (jc & H5 & V5)
             & H6 & Hkeys).
  unfold models.LitterEventPayload.model_validate_json. rewrite Hl.
  destruct p as [pet_id type ts duration_s conf payload]. simpl in *.
  apply (litter_well_formed_accepted obj pet_id type jt ts jd jc);
    auto using json_number_valid.
Qed.

(** Once the event transaction is accepted the row is in [events],
    whatever becomes of the alert. *)
Lemma valid_event_stored (msg : consumer.Msg) (text : string)
    (p : models.LitterEventPayload.t) (env : Env) (w : World) (url : string) :
  utf8.decode (consumer.data msg) = Some text ->
  models.LitterEventPayload.model_validate_json text = inr p ->
  _SessionFactory w = Some url ->
  commit_fails env (commits w) = false ->
  events (snd (consumer.handle_litter_event SETTINGS msg env w))
  = events w ++ [event_row env w msg p].
Proof.
  intros Hd Hv Hf Hc.
  rewrite (litter_valid SETTINGS msg text p env w url Hd Hv Hf), Hc.
  destruct (PyFloat.gt _ _ || PyFloat.lt _ _); [| reflexivity].
  destruct (commit_fails env (S (commits w))); reflexivity.
Qed.

End litter_schema.

(** C2, as the code has it.  [duration_s] is declared [float] with no
    bound: a litter message spelling a payload whose [duration_s] is
    negative validates to that payload, and once the database accepts the
    event its row holds the negative duration. *)
Theorem negative_duration_stored `{Parsers} (SETTINGS : consumer.EdgeSettings)
    (msg : consumer.Msg) (text : string) (obj : list (string * json))
    (p : models.LitterEventPayload.t) (env : Env) (w : World) (url : string) :
  utf8.decode (consumer.data msg) = Some text ->
  json_loads text = Some (JObj obj) ->
  spells_litter obj p ->
  PyFloat.lt (models.LitterEventPayload.duration_s p) (PyFloat.of_Z 0) = true ->
  _SessionFactory w = Some url ->
  commit_fails env (commits w) = false ->
  models.LitterEventPayload.model_validate_json text = inr p
  /\ exists row,
       events (snd (consumer.handle_litter_event SETTINGS msg env w))
       = events w ++ [row]
       /\ EventRecordORM.duration_s row
          = Some (models.LitterEventPayload.duration_s p).
Proof.
  intros Hd Hl Hs _ Hf Hc.
  pose proof (spelled_validates text obj p Hl Hs) as Hv.
  split; [exact Hv |].
  exists (event_row env w msg p). split; [| reflexivity].
  exact (valid_event_stored SETTINGS msg text p env w url Hd Hv Hf Hc).
Qed.

(** C2 fails on a message with [duration_s] -5: it validates and its
    event is stored. *)
Lemma negative_duration_accepted :
  @models.LitterEventPayload.model_validate_json reference_parsers
    (scenario.dq (scenario.litter_json "-5" "0.9"))
  = inr (scenario.litter_payload (PyFloat.of_Z (-5))
           (PyFloat.of_decimal false 9 (-1)))
  /\ PyFloat.lt (PyFloat.of_Z (-5)) (PyFloat.of_Z 0) = true
  /\ fst (scenario.run_litter scenario.healthy "events.litter.device1"
            (scenario.litter_json "-5" "0.9")) = Return tt
  /\ map EventRecordORM.duration_s
       (events (snd (scenario.run_litter scenario.healthy
                       "events.litter.device1"
                       (scenario.litter_json "-5" "0.9"))))
     = [Some (PyFloat.of_Z (-5))].
Proof. repeat split; vm_compute; reflexivity. Qed.

Lemma negative_duration_stored_witness :
  exists row,
    events (snd (scenario.run_litter scenario.healthy "events.litter.device1"
                   (scenario.litter_json "-5" "0.9"))) = [row]
    /\ EventRecordORM.duration_s row = Some (PyFloat.of_Z (-5)).
Proof.
  apply (@negative_duration_stored reference_parsers consumer.default_settings
           (scenario.message "events.litter.device1"
              (scenario.litter_json "-5" "0.9"))
           (scenario.dq (scenario.litter_json "-5" "0.9"))
           (scenario.litter_members (JInt (-5))
              (JFloat (PyFloat.of_decimal false 9 (-1))))
           (scenario.litter_payload (PyFloat.of_Z (-5))
              (PyFloat.of_decimal false 9 (-1)))
           scenario.healthy scenario.fresh "sqlite:///./pets.db").
  - vm_compute; reflexivity.
  - vm_compute; reflexivity.
  - unfold spells_litter. split.
    { repeat constructor; simpl; intuition discriminate. }
    repeat split; try reflexivity.
    + eexists; split; [reflexivity | vm_compute; reflexivity].
    + eexists; split; [reflexivity | vm_compute; reflexivity].
    + eexists; split; [reflexivity | vm_compute; reflexivity].
    + intros key Hin. exact Hin.
  - vm_compute; reflexivity.
  - reflexivity.
  - reflexivity.
Defined.

(** C3, as the code has it.  [pet_id] and [type] are declared [str] with
    no length bound: a litter message spelling a payload whose [pet_id] or
    [type] is the empty string validates to that payload, and once the
    database accepts the event its row holds the two strings as sent. *)
Theorem empty_identifiers_stored `{Parsers} (SETTINGS : consumer.EdgeSettings)
    (msg : consumer.Msg) (text : string) (obj : list (string * json))
    (p : models.LitterEventPayload.t) (env : Env) (w : World) (url : string) :
  utf8.decode (consumer.data msg) = Some text ->
  json_loads text = Some (JObj obj) ->
  spells_litter obj p ->
  models.LitterEventPayload.pet_id p = ""
  \/ models.LitterEventPayload.type p = "" ->
  _SessionFactory w = Some url ->
  commit_fails env (commits w) = false ->
  models.LitterEventPayload.model_validate_json text = inr p
  /\ exists row,
       events (snd (consumer.handle_litter_event SETTINGS msg env w))
       = events w ++ [row]
       /\ EventRecordORM.pet_id row = models.LitterEventPayload.pet_id p
       /\ EventRecordORM.type row = models.LitterEventPayload.type p.
Proof.
  intros Hd Hl Hs _ Hf Hc.
  assert (Hv : models.LitterEventPayload.model_validate_json text = inr p)
    by (eapply spelled_validates; eassumption).
  split; [exact Hv |].
  exists (event_row env w msg p). repeat split.
  eapply valid_event_stored; eassumption.
Qed.

(** C3 fails on a message whose [pet_id] and [type] are both empty: it
    validates and its event is stored. *)
Lemma empty_identifiers_accepted :
  @models.LitterEventPayload.model_validate_json reference_parsers
    (scenario.dq scenario.anonymous_json)
  = inr scenario.anonymous_payload
  /\ fst (scenario.run_litter scenario.healthy "events.litter.device1"
            scenario.anonymous_json) = Return tt
  /\ map (fun row => (EventRecordORM.pet_id row, EventRecordORM.type row))
       (events (snd (scenario.run_litter scenario.healthy
                       "events.litter.device1" scenario.anonymous_json)))
     = [("", "")].
Proof. repeat split; vm_compute; reflexivity. Qed.

Lemma empty_identifiers_stored_witness :
  exists row,
    events (snd (scenario.run_litter scenario.healthy "events.litter.device1"
                   scenario.anonymous_json)) = [row]
    /\ EventRecordORM.pet_id row = "" /\ EventRecordORM.type row = "".
Proof.
  apply (@empty_identifiers_stored reference_parsers consumer.default_settings
           (scenario.message "events.litter.device1" scenario.anonymous_json)
           (scenario.dq scenario.anonymous_json)
           scenario.anonymous_members scenario.anonymous_payload
           scenario.healthy scenario.fresh "sqlite:///./pets.db").
  - vm_compute; reflexivity.
  - vm_compute; reflexivity.
  - unfold spells_litter. split.
    { repeat constructor; simpl; intuition discriminate. }
    repeat split; try reflexivity.
    + eexists; split; [reflexivity | vm_compute; reflexivity].
    + eexists; split; [reflexivity | vm_compute; reflexivity].
    + eexists; split; [reflexivity | vm_compute; reflexivity].
    + intros key Hin. exact Hin.
  - left; reflexivity.
  - reflexivity.
  - reflexivity.
Defined.

(** C4, as the code has it.  [payload] is declared without a default, so
    it is required: a litter message that omits it fails validation with a
    "missing" line for [payload], whatever its other fields hold; the
    handler logs the error and returns, and nothing is stored. *)
Theorem payload_is_required `{Parsers} (SETTINGS : consumer.EdgeSettings)
    (msg : consumer.Msg) (text : string) (obj : list (string * json))
    (env : Env) (w : World) :
  utf8.decode (consumer.data msg) = Some text ->
  json_loads text = Some (JObj obj) ->
  ~ In "payload" (map fst obj) ->
  exists errors,
    models.LitterEventPayload.model_validate_json text = inl errors
    /\ In (models.mk_error "missing" ["payload"]) errors
    /\ fst (consumer.handle_litter_event SETTINGS msg env w) = Return tt
    /\ events (snd (consumer.handle_litter_event SETTINGS msg env w)) = events w
    /\ alerts (snd (consumer.handle_litter_event SETTINGS msg env w)) = alerts w
    /\ log (snd (consumer.handle_litter_event SETTINGS msg env w))
       = log w ++ [invalid_litter errors].
Proof.
  intros Hd Hl Hno. apply lookup_None in Hno.
  destruct (litter_payload_required obj Hno) as [errors [Hv Hin]].
  exists errors.
  assert (Hj : models.LitterEventPayload.model_validate_json text = inl errors).
  { unfold models.LitterEventPayload.model_validate_json. now rewrite Hl. }
  rewrite (litter_invalid SETTINGS msg text errors env w Hd Hj).
  repeat split; assumption.
Qed.

(** C4 fails on the scenario message without [payload]: validation
    reports the field missing and no event is stored. *)
Lemma omitted_payload_rejected :
  @models.LitterEventPayload.model_validate_json reference_parsers
    (scenario.dq scenario.no_payload_json)
  = inl [models.mk_error "missing" ["payload"]]
  /\ events (snd (scenario.run_litter scenario.healthy "events.litter.device1"
                    scenario.no_payload_json)) = [].
Proof. split; vm_compute; reflexivity. Qed.

Lemma payload_is_required_witness :
  exists errors,
    @models.LitterEventPayload.model_validate_json reference_parsers
      (scenario.dq scenario.no_payload_json) = inl errors
    /\ In (models.mk_error "missing" ["payload"]) errors
    /\ fst (scenario.run_litter scenario.healthy "events.litter.device1"
              scenario.no_payload_json) = Return tt
    /\ events (snd (scenario.run_litter scenario.healthy
                      "events.litter.device1" scenario.no_payload_json)) = []
    /\ alerts (snd (scenario.run_litter scenario.healthy
                      "events.litter.device1" scenario.no_payload_json)) = []
    /\ log (snd (scenario.run_litter scenario.healthy
                   "events.litter.device1" scenario.no_payload_json))
       = [invalid_litter errors].
Proof.
  apply (@payload_is_required reference_parsers consumer.default_settings
           (scenario.message "events.litter.device1" scenario.no_payload_json)
           (scenario.dq scenario.no_payload_json)
           scenario.no_payload_members scenario.healthy scenario.fresh).
  - vm_compute; reflexivity.
  - vm_compute; reflexivity.
  - simpl. intuition discriminate.
Defined.

(** ** Messages that are dropped *)

(** A litter message whose text fails validation is logged and dropped:
    the handler returns, and only the log changes. *)
Lemma invalid_litter_message_dropped `{Parsers}
    (SETTINGS : consumer.EdgeSettings) (msg : consumer.Msg) (text : string)
    (errors : list models.ErrorDetails) (env : Env) (w : World) :
  utf8.decode (consumer.data msg) = Some text ->
  models.LitterEventPayload.model_validate_json text = inl errors ->
  fst (consumer.handle_litter_event SETTINGS msg env w) = Return tt
  /\ events (snd (consumer.handle_litter_event SETTINGS msg env w)) = events w
  /\ alerts (snd (consumer.handle_litter_event SETTINGS msg env w)) = alerts w
  /\ log (snd (consumer.handle_litter_event SETTINGS msg env w))
     = log w ++ [invalid_litter errors].
Proof.
  intros Hd Hv.
  rewrite (litter_invalid SETTINGS msg text errors env w Hd Hv).
  repeat split.
Qed.

(** Scenario 4: malformed JSON on [events.litter.device1]. *)
Example malformed_json_dropped :
  scenario.run_litter scenario.healthy "events.litter.device1" "{not json"
  = (Return tt,
     add_log (invalid_litter [models.mk_error "json_invalid" []])
             scenario.fresh).
Proof. vm_compute; reflexivity. Qed.

(** C5 does not hold for bytes that are not UTF-8.  [msg.data.decode]
    stands inside the [try], but the clause catches [ValidationError]
    only: on the one-byte message FF the handler raises
    [UnicodeDecodeError] to the bus client and logs nothing. *)
Theorem undecodable_litter_message_raises `{Parsers}
    (SETTINGS : consumer.EdgeSettings) (subject : string)
    (env : Env) (w : World) :
  consumer.handle_litter_event SETTINGS (consumer.mk_msg subject [xff]) env w
  = (Raise UnicodeDecodeError, w).
Proof. apply litter_undecodable. reflexivity. Qed.

(** C9.  Both schemas forbid extra fields: a message whose JSON object
    has a key that is no field of the schema fails validation with an
    "extra_forbidden" line for that key, whatever the declared fields hold;
    the handler logs the error and returns, leaving both tables as they
    were. *)
Theorem unknown_field_rejected `{Parsers} (SETTINGS : consumer.EdgeSettings)
    (msg : consumer.Msg) (text : string) (obj : list (string * json))
    (key : string) (env : Env) (w : World) :
  utf8.decode (consumer.data msg) = Some text ->
  json_loads text = Some (JObj obj) ->
  In key (map fst obj) ->
  (~ In key models.LitterEventPayload.model_fields ->
   exists errors,
     models.LitterEventPayload.model_validate_json text = inl errors
     /\ In (models.mk_error "extra_forbidden" [key]) errors
     /\ consumer.handle_litter_event SETTINGS msg env w
        = (Return tt, add_log (invalid_litter errors) w))
  /\ (~ In key models.PlayroomAlertPayload.model_fields ->
   exists errors,
     models.PlayroomAlertPayload.model_validate_json text = inl errors
     /\ In (models.mk_error "extra_forbidden" [key]) errors
     /\ consumer.handle_playroom_alert msg env w
        = (Return tt, add_log (invalid_playroom errors) w)).
Proof.
  intros Hd Hl Hin. split; intros Hnot.
  - destruct (litter_extra_rejected obj _
                (extra_forbidden_In _ obj key Hin Hnot)) as [errors [Hv He]].
    assert (Hj : models.LitterEventPayload.model_validate_json text = inl errors).
    { unfold models.LitterEventPayload.model_validate_json. now rewrite Hl. }
    exists errors. repeat split; try assumption.
    now apply litter_invalid with (text := text).
  - destruct (playroom_extra_rejected obj _
                (extra_forbidden_In _ obj key Hin Hnot)) as [errors [Hv He]].
    assert (Hj : models.PlayroomAlertPayload.model_validate_json text = inl errors).
    { unfold models.PlayroomAlertPayload.model_validate_json. now rewrite Hl. }
    exists errors. repeat split; try assumption.
    now apply playroom_invalid with (text := text).
Qed.

(** The litter scenario message with an added key [zone], sent on the
    litter subject and on the playroom subject. *)
Lemma unknown_field_rejected_witness :
  scenario.run_litter scenario.healthy "events.litter.device1" scenario.zone_json
  = (Return tt,
     add_log (invalid_litter [models.mk_error "extra_forbidden" ["zone"]])
             scenario.fresh)
  /\ events (snd (scenario.run_playroom scenario.healthy "playroom.alerts.r1"
                    scenario.zone_json)) = []
  /\ alerts (snd (scenario.run_playroom scenario.healthy "playroom.alerts.r1"
                    scenario.zone_json)) = [].
Proof.
  destruct (@unknown_field_rejected reference_parsers consumer.default_settings
              (scenario.message "events.litter.device1" scenario.zone_json)
              (scenario.dq scenario.zone_json) scenario.zone_members "zone"
              scenario.healthy scenario.fresh)
    as [Hlitter _].
  { vm_compute; reflexivity. }
  { vm_compute; reflexivity. }
  { simpl; tauto. }
  destruct (@unknown_field_rejected reference_parsers consumer.default_settings
              (scenario.message "playroom.alerts.r1" scenario.zone_json)
              (scenario.dq scenario.zone_json) scenario.zone_members "zone"
              scenario.healthy scenario.fresh)
    as [_ Hplayroom].
  { vm_compute; reflexivity. }
  { vm_compute; reflexivity. }
  { simpl; tauto. }
  destruct Hlitter as [e1 [Hv1 [_ Hrun1]]].
  { simpl; intuition discriminate. }
  destruct Hplayroom as [e2 [_ [_ Hrun2]]].
  { simpl; intuition discriminate. }
  assert (He1 : e1 = [models.mk_error "extra_forbidden" ["zone"]]).
  { assert (Hc : @models.LitterEventPayload.model_validate_json
                   reference_parsers (scenario.dq scenario.zone_json)
                 = inl [models.mk_error "extra_forbidden" ["zone"]])
      by (vm_compute; reflexivity).
    rewrite Hc in Hv1. now inversion Hv1. }
  subst e1. split; [exact Hrun1 |].
  unfold scenario.run_playroom. rewrite Hrun2. split; reflexivity.
Defined.

(** ** Alerts of the litter route *)

(** C6.  Whatever the message, the state and the fate of the
    transactions, the litter handler appends at most one row to [alerts],
    and that row has kind "litter-anomaly", severity "moderate" or "high",
    state "open", no [evidence_url] and no [room_id]. *)
Theorem derived_alert_shape `{Parsers} (SETTINGS : consumer.EdgeSettings)
    (msg : consumer.Msg) (env : Env) (w : World) :
  exists new,
    alerts (snd (consumer.handle_litter_event SETTINGS msg env w))
    = alerts w ++ new
    /\ List.length new <= 1
    /\ forall a, In a new ->
         AlertRecord.kind a = "litter-anomaly"
         /\ (AlertRecord.severity a = "moderate"
             \/ AlertRecord.severity a = "high")
         /\ AlertRecord.state a = "open"
         /\ AlertRecord.evidence_url a = None
         /\ AlertRecord.room_id a = None.
Proof.
  assert (Hnone : forall r : outcome unit * World,
             alerts (snd r) = alerts w ->
             exists new : list AlertRecord.t,
               alerts (snd r) = alerts w ++ new /\ List.length new <= 1
               /\ forall a, In a new ->
                    AlertRecord.kind a = "litter-anomaly"
                    /\ (AlertRecord.severity a = "moderate"
                        \/ AlertRecord.severity a = "high")
                    /\ AlertRecord.state a = "open"
                    /\ AlertRecord.evidence_url a = None
                    /\ AlertRecord.room_id a = None).
  { intros r Hr. exists []. rewrite app_nil_r.
    split; [exact Hr | split; [simpl; lia | intros a []]]. }
  destruct (utf8.decode (consumer.data msg)) as [text|] eqn:Hd.
  2: { rewrite (litter_undecodable SETTINGS msg env w Hd). now apply Hnone. }
  destruct (models.LitterEventPayload.model_validate_json text)
    as [errors|payload] eqn:Hv.
  { rewrite (litter_invalid SETTINGS msg text errors env w Hd Hv).
    now apply Hnone. }
  destruct (_SessionFactory w) as [url|] eqn:Hf.
  2: { rewrite (litter_unconfigured SETTINGS msg text payload env w Hd Hv Hf).
       now apply Hnone. }
  rewrite (litter_valid SETTINGS msg text payload env w url Hd Hv Hf).
  destruct (commit_fails env (commits w)); [now apply Hnone |].
  destruct (PyFloat.gt _ _ || PyFloat.lt _ _); [| now apply Hnone].
  destruct (commit_fails env (S (commits w))); [now apply Hnone |].
  eexists. split; [reflexivity |]. split; [simpl; lia |].
  intros a [<- | []]. simpl.
  destruct (PyFloat.lt _ _); auto.
Qed.

(** C10.  The alert the rule derives is stamped with the clock, not with
    the event: its [ts] is the UTC reading taken when
    [create_alert_from_event] runs (the reading after the one that stamped
    the event row), and a message that differs in the event's [ts] alone
    yields the very same alert row. *)
Theorem derived_alert_ts_is_wall_clock `{Parsers}
    (SETTINGS : consumer.EdgeSettings) (msg : consumer.Msg) (text : string)
    (payload : models.LitterEventPayload.t) (env : Env) (w : World)
    (url : string) :
  utf8.decode (consumer.data msg) = Some text ->
  models.LitterEventPayload.model_validate_json text = inr payload ->
  _SessionFactory w = Some url ->
  commit_fails env (commits w) = false ->
  commit_fails env (S (commits w)) = false ->
  PyFloat.gt (models.LitterEventPayload.duration_s payload)
             (consumer.litter_duration_threshold SETTINGS)
  || PyFloat.lt (models.LitterEventPayload.conf payload)
                (consumer.litter_conf_threshold SETTINGS) = true ->
  exists a,
    alerts (snd (consumer.handle_litter_event SETTINGS msg env w))
    = alerts w ++ [a]
    /\ AlertRecord.ts a
       = mk_datetime (utc_clock env (S (clock_reads w))) timezone_utc
    /\ forall (msg' : consumer.Msg) (text' : string) (ts' : datetime),
         utf8.decode (consumer.data msg') = Some text' ->
         models.LitterEventPayload.model_validate_json text'
         = inr (models.LitterEventPayload.Build
                  (models.LitterEventPayload.pet_id payload)
                  (models.LitterEventPayload.type payload)
                  ts'
                  (models.LitterEventPayload.duration_s payload)
                  (models.LitterEventPayload.conf payload)
                  (models.LitterEventPayload.payload payload)) ->
         alerts (snd (consumer.handle_litter_event SETTINGS msg' env w))
         = alerts w ++ [a].
Proof.
  intros Hd Hv Hf Hc1 Hc2 Hbreach.
  rewrite (litter_valid SETTINGS msg text payload env w url Hd Hv Hf).
  rewrite Hc1, Hbreach, Hc2. eexists. split; [reflexivity |].
  split; [reflexivity |].
  intros msg' text' ts' Hd' Hv'.
  rewrite (litter_valid SETTINGS msg' text' _ env w url Hd' Hv' Hf).
  simpl. rewrite Hc1, Hbreach, Hc2. reflexivity.
Qed.

(** Scenario 1: the event says midnight, the clock reads eleven seconds
    past, and the alert carries the clock's reading. *)
Lemma derived_alert_ts_is_wall_clock_witness :
  models.LitterEventPayload.ts
    (scenario.litter_payload (PyFloat.of_Z 200) (PyFloat.of_decimal false 9 (-1)))
  = mk_datetime 1704067200000000 timezone_utc
  /\ map AlertRecord.ts
       (alerts (snd (scenario.run_litter scenario.healthy
                       "events.litter.device1"
                       (scenario.litter_json "200" "0.9"))))
     = [mk_datetime 1704067211000000 timezone_utc].
Proof.
  split; [reflexivity |].
  destruct (@derived_alert_ts_is_wall_clock reference_parsers
              consumer.default_settings
              (scenario.message "events.litter.device1"
                 (scenario.litter_json "200" "0.9"))
              (scenario.dq (scenario.litter_json "200" "0.9"))
              (scenario.litter_payload (PyFloat.of_Z 200)
                 (PyFloat.of_decimal false 9 (-1)))
              scenario.healthy scenario.fresh "sqlite:///./pets.db")
    as (a & Hrun & Hts & _);
    [vm_compute; reflexivity .. |].
  unfold scenario.run_litter. rewrite Hrun. simpl. rewrite Hts. reflexivity.
Defined.

(** ** The playroom route *)

Section playroom_schema.
Context `{Parsers}.

Lemma playroom_spelled_validates (text : string) (obj : list (string * json))
    (p : models.PlayroomAlertPayload.t) :
  json_loads text = Some (JObj obj) -> spells_playroom obj p ->
  models.PlayroomAlertPayload.model_validate_json text = inr p.
Proof.
  intros Hl (_ & H1 & H2 & H3 & H4 & H5 & (ju & H6 & V6) & (jt & H7 & V7)
             & Hkeys).
  unfold models.PlayroomAlertPayload.model_validate_json. rewrite Hl.
  destruct p as [pet_id room_id kind severity state evidence_url ts].
  simpl in *.
  unfold models.PlayroomAlertPayload.model_validate. cbv zeta.
  rewrite (field_valid obj "pet_id" models.str_validator _ _ pet_id H1 eq_refl).
  rewrite (field_valid obj "room_id" models.str_validator _ _ room_id H2 eq_refl).
  rewrite (field_valid obj "kind" models.str_validator _ _ kind H3 eq_refl).
  rewrite (field_valid obj "severity" models.str_validator _ _ severity H4
             eq_refl).
  rewrite (field_valid obj "state" models.str_validator _ _ state H5 eq_refl).
  rewrite (field_valid obj "evidence_url" url_validator _ _ evidence_url H6 V6).
  rewrite (field_valid obj "ts" datetime_validator _ _ ts H7 V7).
  rewrite (extra_forbidden_nil models.PlayroomAlertPayload.model_fields obj
             Hkeys).
  reflexivity.
Qed.

End playroom_schema.

(** C7, as the code has it.  A playroom message that spells a payload
    validates to it, and once the database accepts the transaction the
    handler leaves exactly one new row in [alerts] and none in [events].
    The row's [pet_id], [room_id], [kind], [severity] and [state] are the
    strings sent and its [ts] is the instant sent; its [evidence_url] is
    not the text sent but [str] of the validated URL, the text as the
    validator normalised it.  The handler takes no thresholds: no rule
    runs.  With the row committed, [record_playroom_alert] parses the
    stored [evidence_url] once more for its response: the handler returns
    when that succeeds and raises [ValidationError] when it does not, the
    row staying stored. *)
Theorem playroom_alert_stored_as_validated `{Parsers} (msg : consumer.Msg)
    (text : string) (obj : list (string * json))
    (p : models.PlayroomAlertPayload.t) (env : Env) (w : World)
    (url : string) :
  utf8.decode (consumer.data msg) = Some text ->
  json_loads text = Some (JObj obj) ->
  spells_playroom obj p ->
  _SessionFactory w = Some url ->
  commit_fails env (commits w) = false ->
  let r := consumer.handle_playroom_alert msg env w in
  let stored_url := url_str (models.PlayroomAlertPayload.evidence_url p) in
  models.PlayroomAlertPayload.model_validate_json text = inr p
  /\ events (snd r) = events w
  /\ alerts (snd r)
     = alerts w
       ++ [AlertRecord.Build
             (Some (uuid4 env (uuids_drawn w)))
             (models.PlayroomAlertPayload.pet_id p)
             (Some (models.PlayroomAlertPayload.room_id p))
             (models.PlayroomAlertPayload.kind p)
             (models.PlayroomAlertPayload.severity p)
             (models.PlayroomAlertPayload.state p)
             (Some stored_url)
             (models.PlayroomAlertPayload.ts p)
             (Some (mk_datetime (utc_clock env (clock_reads w))
                                timezone_utc))]
  /\ (url_validator (JStr stored_url) <> None -> fst r = Return tt)
  /\ (url_validator (JStr stored_url) = None ->
      fst r = Raise (ValidationError
                       [models.mk_error "url_type" ["evidence_url"]])).
Proof.
  intros Hd Hl Hs Hf Hc r stored_url. subst r stored_url.
  pose proof (playroom_spelled_validates text obj p Hl Hs) as Hv.
  rewrite (playroom_valid msg text p env w url Hd Hv Hf), Hc.
  unfold read_back. cbn [fst snd events alerts].
  split; [exact Hv |]. split; [reflexivity |]. split; [reflexivity |].
  destruct (url_validator _) as [again|]; split; intros Hu;
    congruence.
Qed.

(** C7 fails where it says the [evidence_url] is stored verbatim.  The
    alert of scenario 5 sent with the URL [https://x] is valid, and the
    row stored for it holds [https://x/]. *)
Lemma evidence_url_not_verbatim :
  @models.PlayroomAlertPayload.model_validate_json reference_parsers
    (scenario.dq scenario.bare_url_json)
  = inr (models.PlayroomAlertPayload.Build "p2" "r1" "fight" "high" "open"
           (mk_HttpUrl "https://x/") scenario.midnight)
  /\ fst (scenario.run_playroom scenario.healthy "playroom.alerts.r1"
            scenario.bare_url_json) = Return tt
  /\ map AlertRecord.evidence_url
       (alerts (snd (scenario.run_playroom scenario.healthy
                       "playroom.alerts.r1" scenario.bare_url_json)))
     = [Some "https://x/"]
  /\ "https://x/" <> "https://x".
Proof.
  split; [vm_compute; reflexivity |].
  split; [vm_compute; reflexivity |].
  split; [vm_compute; reflexivity | discriminate].
Qed.

(** Scenario 5: its URL is already as the validator writes it. *)
Lemma playroom_alert_stored_as_validated_witness :
  fst (scenario.run_playroom scenario.healthy "playroom.alerts.r1"
         scenario.playroom_json) = Return tt
  /\ map (fun a => (AlertRecord.pet_id a, AlertRecord.room_id a,
                    AlertRecord.kind a, AlertRecord.severity a,
                    AlertRecord.state a, AlertRecord.evidence_url a,
                    AlertRecord.ts a))
         (alerts (snd (scenario.run_playroom scenario.healthy
                         "playroom.alerts.r1" scenario.playroom_json)))
     = [("p2", Some "r1", "fight", "high", "open", Some "https://x/e.mp4",
         scenario.midnight)].
Proof.
  destruct (@playroom_alert_stored_as_validated reference_parsers
              (scenario.message "playroom.alerts.r1" scenario.playroom_json)
              (scenario.dq scenario.playroom_json) scenario.playroom_members
              scenario.playroom_payload
              scenario.healthy scenario.fresh "sqlite:///./pets.db")
    as (_ & _ & Halerts & Hreturn & _).
  - vm_compute; reflexivity.
  - vm_compute; reflexivity.
  - unfold spells_playroom. split.
    { repeat constructor; simpl; intuition discriminate. }
    repeat split; try reflexivity.
    + eexists; split; [reflexivity | vm_compute; reflexivity].
    + eexists; split; [reflexivity | vm_compute; reflexivity].
    + intros key Hin. exact Hin.
  - vm_compute; reflexivity.
  - reflexivity.
  - unfold scenario.run_playroom. rewrite Halerts. split.
    + apply Hreturn. vm_compute. discriminate.
    + reflexivity.
Defined.

(** ** Failure of the second transaction *)

(** C8, as the code has it.  The event is committed before the alert
    write begins: when the database refuses the event's transaction the
    handler raises at once, with that one transaction attempted and
    nothing stored.  When the event is stored and the database refuses the
    alert's transaction, the exception leaves the handler, which logs no
    error for it; the event row stays in [events] and no alert is
    stored. *)
Theorem event_survives_alert_failure `{Parsers}
    (SETTINGS : consumer.EdgeSettings) (msg : consumer.Msg) (text : string)
    (payload : models.LitterEventPayload.t) (env : Env) (w : World)
    (url : string) :
  utf8.decode (consumer.data msg) = Some text ->
  models.LitterEventPayload.model_validate_json text = inr payload ->
  _SessionFactory w = Some url ->
  let r := consumer.handle_litter_event SETTINGS msg env w in
  (commit_fails env (commits w) = true ->
     fst r = Raise SQLAlchemyError
     /\ events (snd r) = events w /\ alerts (snd r) = alerts w
     /\ commits (snd r) = S (commits w))
  /\ (commit_fails env (commits w) = false ->
      PyFloat.gt (models.LitterEventPayload.duration_s payload)
                 (consumer.litter_duration_threshold SETTINGS)
      || PyFloat.lt (models.LitterEventPayload.conf payload)
                    (consumer.litter_conf_threshold SETTINGS) = true ->
      commit_fails env (S (commits w)) = true ->
      fst r = Raise SQLAlchemyError
      /\ events (snd r) = events w ++ [event_row env w msg payload]
      /\ alerts (snd r) = alerts w
      /\ log (snd r) = log w ++ [received_litter msg payload]).
Proof.
  intros Hd Hv Hf r. subst r.
  rewrite (litter_valid SETTINGS msg text payload env w url Hd Hv Hf).
  split.
  - intros Hc1. rewrite Hc1. repeat split.
  - intros Hc1 Hbreach Hc2. rewrite Hc1, Hbreach, Hc2. repeat split.
Qed.

(** C8 fails where it says the failure is logged.  Scenario 1 with the
    second transaction refused: the handler raises, the event row is
    stored, no alert is, and the log holds the one INFO record of the
    receipt. *)
Lemma alert_failure_not_logged :
  fst (scenario.run_litter scenario.second_commit_fails
         "events.litter.device1" (scenario.litter_json "200" "0.9"))
  = Raise SQLAlchemyError
  /\ map level
       (log (snd (scenario.run_litter scenario.second_commit_fails
                    "events.litter.device1" (scenario.litter_json "200" "0.9"))))
     = [INFO]
  /\ List.length (events (snd (scenario.run_litter scenario.second_commit_fails
                            "events.litter.device1"
                            (scenario.litter_json "200" "0.9")))) = 1
  /\ alerts (snd (scenario.run_litter scenario.second_commit_fails
                    "events.litter.device1"
                    (scenario.litter_json "200" "0.9"))) = [].
Proof. repeat split; vm_compute; reflexivity. Qed.

Lemma event_survives_alert_failure_witness :
  fst (scenario.run_litter scenario.second_commit_fails
         "events.litter.device1" (scenario.litter_json "200" "0.9"))
  = Raise SQLAlchemyError
  /\ map EventRecordORM.pet_id
       (events (snd (scenario.run_litter scenario.second_commit_fails
                       "events.litter.device1"
                       (scenario.litter_json "200" "0.9")))) = ["p1"]
  /\ alerts (snd (scenario.run_litter scenario.second_commit_fails
                    "events.litter.device1"
                    (scenario.litter_json "200" "0.9"))) = [].
Proof.
  destruct (@event_survives_alert_failure reference_parsers
              consumer.default_settings
              (scenario.message "events.litter.device1"
                 (scenario.litter_json "200" "0.9"))
              (scenario.dq (scenario.litter_json "200" "0.9"))
              (scenario.litter_payload (PyFloat.of_Z 200)
                 (PyFloat.of_decimal false 9 (-1)))
              scenario.second_commit_fails scenario.fresh
              "sqlite:///./pets.db")
    as [_ Hsecond];
    [vm_compute; reflexivity .. |].
  destruct Hsecond as (Hraise & Hevents & Halerts & _);
    [vm_compute; reflexivity .. |].
  unfold scenario.run_litter.
  rewrite Hraise, Hevents, Halerts. repeat split.
Defined.

(** ** Further properties of the two schemas *)

Section schema_fields.
Context `{Parsers}.

Lemma litter_field_required (obj : list (string * json)) (name : string) :
  In name models.LitterEventPayload.model_fields ->
  models.lookup name obj = None ->
  exists errors,
    models.LitterEventPayload.model_validate (JObj obj) = inl errors
    /\ In (models.mk_error "missing" [name]) errors.
Proof.
  intros Hin Hl. unfold models.LitterEventPayload.model_validate. cbv zeta.
  simpl in Hin.
  destruct Hin as [<-|[<-|[<-|[<-|[<-|[<-|[]]]]]]];
    unfold models.field; rewrite Hl;
    repeat match goal with
    | |- context [models.lookup ?k obj] => destruct (models.lookup k obj)
    | |- context [match ?v ?j with Some _ => _ | None => _ end] =>
        destruct (v j)
    end;
    eexists; (split; [reflexivity | simpl; auto 10]).
Qed.

Lemma playroom_field_required (obj : list (string * json)) (name : string) :
  In name models.PlayroomAlertPayload.model_fields ->
  models.lookup name obj = None ->
  exists errors,
    models.PlayroomAlertPayload.model_validate (JObj obj) = inl errors
    /\ In (models.mk_error "missing" [name]) errors.
Proof.
  intros Hin Hl. unfold models.PlayroomAlertPayload.model_validate. cbv zeta.
  simpl in Hin.
  destruct Hin as [<-|[<-|[<-|[<-|[<-|[<-|[<-|[]]]]]]]];
    unfold models.field; rewrite Hl;
    repeat match goal with
    | |- context [models.lookup ?k obj] => destruct (models.lookup k obj)
    | |- context [match ?v ?j with Some _ => _ | None => _ end] =>
        destruct (v j)
    end;
    eexists; (split; [reflexivity | simpl; auto 10]).
Qed.

End schema_fields.

(** X1.  Every field of both schemas is required: a message whose JSON
    object lacks a declared field fails validation with a "missing" line
    for that field, whatever else it holds. *)
Theorem every_field_required `{Parsers} (text : string)
    (obj : list (string * json)) (name : string) :
  json_loads text = Some (JObj obj) ->
  ~ In name (map fst obj) ->
  (In name models.LitterEventPayload.model_fields ->
   exists errors,
     models.LitterEventPayload.model_validate_json text = inl errors
     /\ In (models.mk_error "missing" [name]) errors)
  /\ (In name models.PlayroomAlertPayload.model_fields ->
   exists errors,
     models.PlayroomAlertPayload.model_validate_json text = inl errors
     /\ In (models.mk_error "missing" [name]) errors).
Proof.
  intros Hl Hno. apply lookup_None in Hno.
  unfold models.LitterEventPayload.model_validate_json,
    models.PlayroomAlertPayload.model_validate_json. rewrite Hl.
  split; intros Hin.
  - now apply litter_field_required.
  - now apply playroom_field_required.
Qed.

(** A litter message without [conf]; a playroom message without
    [evidence_url]. *)
Lemma every_field_required_witness :
  @models.LitterEventPayload.model_validate_json reference_parsers
    (scenario.dq "{'pet_id':'p1', 'type':'use', 'ts':'2024-01-01T00:00:00Z', 'duration_s':200, 'payload':{}}")
  = inl [models.mk_error "missing" ["conf"]]
  /\ exists errors,
       @models.PlayroomAlertPayload.model_validate_json reference_parsers
         (scenario.dq "{'pet_id':'p2', 'room_id':'r1'}") = inl errors
       /\ In (models.mk_error "missing" ["evidence_url"]) errors.
Proof.
  split.
  - destruct (@every_field_required reference_parsers
                (scenario.dq "{'pet_id':'p1', 'type':'use', 'ts':'2024-01-01T00:00:00Z', 'duration_s':200, 'payload':{}}")
                [("pet_id", JStr "p1"); ("type", JStr "use");
                 ("ts", JStr "2024-01-01T00:00:00Z");
                 ("duration_s", JInt 200); ("payload", JObj [])]
                "conf") as [Hlitter _].
    + vm_compute; reflexivity.
    + simpl; intuition discriminate.
    + destruct Hlitter as [errors [Hv _]]; [simpl; tauto |].
      vm_compute; reflexivity.
  - apply (@every_field_required reference_parsers
             (scenario.dq "{'pet_id':'p2', 'room_id':'r1'}")
             [("pet_id", JStr "p2"); ("room_id", JStr "r1")] "evidence_url").
    + vm_compute; reflexivity.
    + simpl; intuition discriminate.
    + simpl; tauto.
Defined.

(** ** Further properties of the handlers *)

(** X2.  A message whose bytes decode and whose text fails validation is
    logged and dropped, on either route: the handler returns, one ERROR
    record carrying the validation errors joins the log, and nothing else
    of the state changes. *)
Theorem refused_message_logged_and_dropped `{Parsers}
    (SETTINGS : consumer.EdgeSettings) (msg : consumer.Msg) (text : string)
    (env : Env) (w : World) :
  utf8.decode (consumer.data msg) = Some text ->
  (forall errors,
     models.LitterEventPayload.model_validate_json text = inl errors ->
     consumer.handle_litter_event SETTINGS msg env w
     = (Return tt,
        mk_world (_engine w) (_SessionFactory w) (events w) (alerts w)
                 (pending w) (clock_reads w) (uuids_drawn w) (commits w)
                 (log w ++ [mk_log ERROR "Invalid litter event received: %s"
                              [arg_exc (ValidationError errors)]])))
  /\ (forall errors,
     models.PlayroomAlertPayload.model_validate_json text = inl errors ->
     consumer.handle_playroom_alert msg env w
     = (Return tt,
        mk_world (_engine w) (_SessionFactory w) (events w) (alerts w)
                 (pending w) (clock_reads w) (uuids_drawn w) (commits w)
                 (log w ++ [mk_log ERROR "Invalid playroom alert received: %s"
                              [arg_exc (ValidationError errors)]]))).
Proof.
  intros Hd. split; intros errors Hv.
  - exact (litter_invalid SETTINGS msg text errors env w Hd Hv).
  - exact (playroom_invalid msg text errors env w Hd Hv).
Qed.

(** Text that is no JSON on the litter route; a playroom alert whose
    [evidence_url] is no URL. *)
Lemma refused_message_logged_and_dropped_witness :
  scenario.run_litter scenario.healthy "events.litter.device1" "{not json"
  = (Return tt,
     add_log (invalid_litter [models.mk_error "json_invalid" []])
             scenario.fresh)
  /\ scenario.run_playroom scenario.healthy "playroom.alerts.r1"
       "{'pet_id':'p2', 'room_id':'r1', 'kind':'fight', 'severity':'high', 'state':'open', 'evidence_url':'not a url', 'ts':'2024-01-01T00:00:00Z'}"
     = (Return tt,
        add_log (invalid_playroom [models.mk_error "url_type" ["evidence_url"]])
                scenario.fresh).
Proof.
  split.
  - destruct (@refused_message_logged_and_dropped reference_parsers
                consumer.default_settings
                (scenario.message "events.litter.device1" "{not json")
                (scenario.dq "{not json") scenario.healthy scenario.fresh)
      as [Hlitter _]; [vm_compute; reflexivity |].
    unfold scenario.run_litter.
    rewrite (Hlitter [models.mk_error "json_invalid" []]);
      [reflexivity | vm_compute; reflexivity].
  - destruct (@refused_message_logged_and_dropped reference_parsers
                consumer.default_settings
                (scenario.message "playroom.alerts.r1"
                   "{'pet_id':'p2', 'room_id':'r1', 'kind':'fight', 'severity':'high', 'state':'open', 'evidence_url':'not a url', 'ts':'2024-01-01T00:00:00Z'}")
                (scenario.dq "{'pet_id':'p2', 'room_id':'r1', 'kind':'fight', 'severity':'high', 'state':'open', 'evidence_url':'not a url', 'ts':'2024-01-01T00:00:00Z'}")
                scenario.healthy scenario.fresh)
      as [_ Hplayroom]; [vm_compute; reflexivity |].
    unfold scenario.run_playroom.
    rewrite (Hplayroom [models.mk_error "url_type" ["evidence_url"]]);
      [reflexivity | vm_compute; reflexivity].
Defined.

(** X3.  A valid litter message whose event transaction the database
    accepts leaves exactly one new row in [events], whatever becomes of the
    alert: its [source] is the subject, its [pet_id], [type], [ts],
    [duration_s], [conf] and [payload_json] are the payload's, its [id] is
    the next UUID drawn and its [created_at] the clock's reading. *)
Theorem litter_event_stored_verbatim `{Parsers}
    (SETTINGS : consumer.EdgeSettings) (msg : consumer.Msg) (text : string)
    (payload : models.LitterEventPayload.t) (env : Env) (w : World)
    (url : string) :
  utf8.decode (consumer.data msg) = Some text ->
  models.LitterEventPayload.model_validate_json text = inr payload ->
  _SessionFactory w = Some url ->
  commit_fails env (commits w) = false ->
  events (snd (consumer.handle_litter_event SETTINGS msg env w))
  = events w
    ++ [EventRecordORM.Build
          (Some (uuid4 env (uuids_drawn w)))
          (consumer.subject msg)
          (models.LitterEventPayload.pet_id payload)
          (models.LitterEventPayload.type payload)
          (models.LitterEventPayload.ts payload)
          (Some (models.LitterEventPayload.duration_s payload))
          (Some (models.LitterEventPayload.conf payload))
          (models.LitterEventPayload.payload payload)
          (Some (mk_datetime (utc_clock env (clock_reads w)) timezone_utc))].
Proof.
  intros Hd Hv Hf Hc.
  exact (valid_event_stored SETTINGS msg text payload env w url Hd Hv Hf Hc).
Qed.

(** Scenario 1 with the alert's transaction refused: the event row is
    there all the same. *)
Lemma litter_event_stored_verbatim_witness :
  events (snd (scenario.run_litter scenario.second_commit_fails
                 "events.litter.device1" (scenario.litter_json "200" "0.9")))
  = [EventRecordORM.Build
       (Some "00000000-0000-4000-8000-000000000000")
       "events.litter.device1" "p1" "use" scenario.midnight
       (Some (PyFloat.of_Z 200)) (Some (PyFloat.of_decimal false 9 (-1)))
       [] (Some (mk_datetime 1704067210000000 timezone_utc))].
Proof.
  unfold scenario.run_litter.
  rewrite (@litter_event_stored_verbatim reference_parsers
             consumer.default_settings
             (scenario.message "events.litter.device1"
                (scenario.litter_json "200" "0.9"))
             (scenario.dq (scenario.litter_json "200" "0.9"))
             (scenario.litter_payload (PyFloat.of_Z 200)
                (PyFloat.of_decimal false 9 (-1)))
             scenario.second_commit_fails scenario.fresh
             "sqlite:///./pets.db");
    vm_compute; reflexivity.
Defined.

(** ** Every run of a handler *)

Section every_run.
Context `{Parsers}.
Variable SETTINGS : consumer.EdgeSettings.

(** The ways a litter handler can end: a property of all of them is a
    property of every run. *)
Lemma litter_runs (P : outcome unit * World -> Prop) (msg : consumer.Msg)
    (env : Env) (w : World) :
  P (Raise UnicodeDecodeError, w) ->
  (forall errors, P (Return tt, add_log (invalid_litter errors) w)) ->
  (forall payload,
     _SessionFactory w = None ->
     P (Raise (RuntimeError "Database has not been configured"),
        add_log (received_litter msg payload) w)) ->
  (forall payload severity,
     let logged := log w ++ [received_litter msg payload] in
     let stored := events w ++ [event_row env w msg payload] in
     _SessionFactory w <> None ->
     P (Raise SQLAlchemyError,
        mk_world (_engine w) (_SessionFactory w) (events w) (alerts w) []
                 (S (clock_reads w)) (S (uuids_drawn w)) (S (commits w))
                 logged)
     /\ P (Raise SQLAlchemyError,
           mk_world (_engine w) (_SessionFactory w) stored (alerts w) []
                    (S (S (S (clock_reads w)))) (S (S (uuids_drawn w)))
                    (S (S (commits w))) logged)
     /\ P (Return tt,
           mk_world (_engine w) (_SessionFactory w) stored
                    (alerts w ++ [anomaly_row env w payload severity]) []
                    (S (S (S (clock_reads w)))) (S (S (uuids_drawn w)))
                    (S (S (commits w))) logged)
     /\ P (Return tt,
           mk_world (_engine w) (_SessionFactory w) stored (alerts w) []
                    (S (clock_reads w)) (S (uuids_drawn w)) (S (commits w))
                    logged)) ->
  P (consumer.handle_litter_event SETTINGS msg env w).
Proof.
  intros Hundecodable Hinvalid Hunconfigured Hvalid.
  destruct (utf8.decode (consumer.data msg)) as [text|] eqn:Hd;
    [| now rewrite (litter_undecodable SETTINGS msg env w Hd)].
  destruct (models.LitterEventPayload.model_validate_json text)
    as [errors|payload] eqn:Hv;
    [rewrite (litter_invalid SETTINGS msg text errors env w Hd Hv);
     apply Hinvalid |].
  destruct (_SessionFactory w) as [url|] eqn:Hf.
  2: { rewrite (litter_unconfigured SETTINGS msg text payload env w Hd Hv Hf).
       exact (Hunconfigured payload eq_refl). }
  rewrite (litter_valid SETTINGS msg text payload env w url Hd Hv Hf).
  rewrite ?Hf in *.
  assert (Hn : Some url <> None) by congruence.
  destruct (commit_fails env (commits w));
    [exact (proj1 (Hvalid payload "" Hn)) |].
  destruct (PyFloat.gt _ _ || PyFloat.lt _ _);
    [| exact (proj2 (proj2 (proj2 (Hvalid payload "" Hn))))].
  destruct (commit_fails env (S (commits w)));
    [exact (proj1 (proj2 (Hvalid payload "" Hn))) |].
  exact (proj1 (proj2 (proj2 (Hvalid payload _ Hn)))).
Qed.

Lemma playroom_runs (P : outcome unit * World -> Prop) (msg : consumer.Msg)
    (env : Env) (w : World) :
  P (Raise UnicodeDecodeError, w) ->
  (forall errors, P (Return tt, add_log (invalid_playroom errors) w)) ->
  (forall payload,
     _SessionFactory w = None ->
     P (Raise (RuntimeError "Database has not been configured"),
        add_log (received_playroom payload) w)) ->
  (forall payload,
     let logged := log w ++ [received_playroom payload] in
     _SessionFactory w <> None ->
     P (Raise SQLAlchemyError,
        mk_world (_engine w) (_SessionFactory w) (events w) (alerts w) []
                 (S (clock_reads w)) (S (uuids_drawn w)) (S (commits w))
                 logged)
     /\ P (read_back payload,
           mk_world (_engine w) (_SessionFactory w) (events w)
                    (alerts w ++ [playroom_row env w payload]) []
                    (S (clock_reads w)) (S (uuids_drawn w)) (S (commits w))
                    logged)) ->
  P (consumer.handle_playroom_alert msg env w).
Proof.
  intros Hundecodable Hinvalid Hunconfigured Hvalid.
  destruct (utf8.decode (consumer.data msg)) as [text|] eqn:Hd;
    [| now rewrite (playroom_undecodable msg env w Hd)].
  destruct (models.PlayroomAlertPayload.model_validate_json text)
    as [errors|payload] eqn:Hv;
    [rewrite (playroom_invalid msg text errors env w Hd Hv);
     apply Hinvalid |].
  destruct (_SessionFactory w) as [url|] eqn:Hf.
  - rewrite (playroom_valid msg text payload env w url Hd Hv Hf).
    rewrite ?Hf in *.
    assert (Hn : Some url <> None) by congruence.
    destruct (commit_fails env (commits w));
      [exact (proj1 (Hvalid payload Hn)) | exact (proj2 (Hvalid payload Hn))].
  - assert (Hrun : consumer.handle_playroom_alert msg env w
                   = (Raise (RuntimeError "Database has not been configured"),
                      add_log (received_playroom payload) w)).
    { unfold consumer.handle_playroom_alert, consumer.decode.
      aside. run. settle. }
    rewrite Hrun. exact (Hunconfigured payload eq_refl).
Qed.

End every_run.

(** ** Sequences of deliveries *)

Section sequences.
Context `{Parsers}.
Variable SETTINGS : consumer.EdgeSettings.

Lemma deliveries_cons (r : bus.route) (msg : consumer.Msg)
    (rest : list (bus.route * consumer.Msg)) (env : Env) (w : World) :
  bus.deliveries SETTINGS ((r, msg) :: rest) env w
  = (fst (bus.callback SETTINGS r msg env w)
       :: fst (bus.deliveries SETTINGS rest env
                 (snd (bus.callback SETTINGS r msg env w))),
     snd (bus.deliveries SETTINGS rest env
            (snd (bus.callback SETTINGS r msg env w)))).
Proof.
  simpl. destruct (bus.callback SETTINGS r msg env w) as [o w1]. simpl.
  destruct (bus.deliveries SETTINGS rest env w1) as [os w2]. reflexivity.
Qed.

(** What one delivery adds to the two tables. *)
Lemma delivery_growth (r : bus.route) (msg : consumer.Msg) (env : Env)
    (w : World) :
  exists new_events new_alerts,
    events (snd (bus.callback SETTINGS r msg env w)) = events w ++ new_events
    /\ alerts (snd (bus.callback SETTINGS r msg env w)) = alerts w ++ new_alerts
    /\ List.length new_events <= (if litter_route (r, msg) then 1 else 0)
    /\ List.length new_alerts
       <= List.length new_events + (if litter_route (r, msg) then 0 else 1).
Proof.
  destruct r; simpl.
  - apply (litter_runs SETTINGS
             (fun run => exists new_events new_alerts,
                events (snd run) = events w ++ new_events
                /\ alerts (snd run) = alerts w ++ new_alerts
                /\ List.length new_events <= 1
                /\ List.length new_alerts <= List.length new_events + 0)).
    + exists [], []. simpl. rewrite !app_nil_r. auto.
    + intros errors. exists [], []. simpl. rewrite !app_nil_r. auto.
    + intros payload _. exists [], []. simpl. rewrite !app_nil_r. auto.
    + intros payload severity logged stored _. subst stored. simpl.
      repeat split.
      * exists [], []. simpl. rewrite !app_nil_r. auto.
      * exists [event_row env w msg payload], []. simpl.
        rewrite !app_nil_r. auto.
      * exists [event_row env w msg payload],
          [anomaly_row env w payload severity]. simpl. auto.
      * exists [event_row env w msg payload], []. simpl.
        rewrite !app_nil_r. auto.
  - apply (playroom_runs
             (fun run => exists new_events new_alerts,
                events (snd run) = events w ++ new_events
                /\ alerts (snd run) = alerts w ++ new_alerts
                /\ List.length new_events <= 0
                /\ List.length new_alerts <= List.length new_events + 1)).
    + exists [], []. simpl. rewrite !app_nil_r. auto.
    + intros errors. exists [], []. simpl. rewrite !app_nil_r. auto.
    + intros payload _. exists [], []. simpl. rewrite !app_nil_r. auto.
    + intros payload logged _. simpl. split.
      * exists [], []. simpl. rewrite !app_nil_r. auto.
      * exists [], [playroom_row env w payload]. simpl.
        rewrite !app_nil_r. auto.
Qed.

Lemma delivery_keeps_stamped (r : bus.route) (msg : consumer.Msg) (env : Env)
    (w : World) :
  stamped w -> stamped (snd (bus.callback SETTINGS r msg env w)).
Proof.
  intros [He Ha]. unfold stamped.
  destruct r; simpl.
  - apply (litter_runs SETTINGS
             (fun run => forallb event_stamped (events (snd run)) = true
                         /\ forallb alert_stamped (alerts (snd run)) = true));
      simpl; auto.
    intros payload severity _.
    rewrite !forallb_app, He, Ha. simpl. auto.
  - apply (playroom_runs
             (fun run => forallb event_stamped (events (snd run)) = true
                         /\ forallb alert_stamped (alerts (snd run)) = true));
      simpl; auto.
    intros payload _.
    rewrite !forallb_app, He, Ha. simpl. auto.
Qed.


End sequences.

(** X4.  Over any sequence of deliveries on the two routes the tables
    only grow: the rows present before stay, in place; at most one event
    is added per litter delivery and none by a playroom delivery; at most
    one alert is added per delivery, and a litter delivery adds one only
    together with its event. *)
Theorem deliveries_only_append `{Parsers} (SETTINGS : consumer.EdgeSettings)
    (ds : list (bus.route * consumer.Msg)) (env : Env) (w : World) :
  exists new_events new_alerts,
    events (snd (bus.deliveries SETTINGS ds env w)) = events w ++ new_events
    /\ alerts (snd (bus.deliveries SETTINGS ds env w)) = alerts w ++ new_alerts
    /\ List.length new_events <= List.length (filter litter_route ds)
    /\ List.length new_alerts
       <= List.length new_events
          + List.length (filter (fun d => negb (litter_route d)) ds).
Proof.
  revert w. induction ds as [|[r msg] rest IH]; intros w.
  - exists [], []. simpl. rewrite !app_nil_r. auto.
  - rewrite deliveries_cons. cbn [snd].
    destruct (delivery_growth SETTINGS r msg env w)
      as (e1 & a1 & He1 & Ha1 & Le1 & La1).
    destruct (IH (snd (bus.callback SETTINGS r msg env w)))
      as (e2 & a2 & He2 & Ha2 & Le2 & La2).
    exists (e1 ++ e2), (a1 ++ a2).
    rewrite He2, Ha2, He1, Ha1, <- !app_assoc, !length_app.
    cbn [filter]. destruct (litter_route (r, msg)); cbn [negb List.length];
      repeat split; lia.
Qed.

(** X5.  Every row the handlers store carries its [id] and its
    [created_at]: if all rows of the two tables do, they still do after
    any sequence of deliveries. *)
Theorem deliveries_keep_rows_stamped `{Parsers}
    (SETTINGS : consumer.EdgeSettings)
    (ds : list (bus.route * consumer.Msg)) (env : Env) (w : World) :
  stamped w -> stamped (snd (bus.deliveries SETTINGS ds env w)).
Proof.
  revert w. induction ds as [|[r msg] rest IH]; intros w Hw; [exact Hw |].
  rewrite deliveries_cons. cbn [snd].
  apply IH. now apply delivery_keeps_stamped.
Qed.


(** A litter event with an alert, a playroom alert and a message that is
    not UTF-8, delivered in this order to a process just imported. *)
Lemma deliveries_keep_rows_stamped_witness :
  stamped
    (snd (@bus.deliveries reference_parsers consumer.default_settings
            [(bus.litter, scenario.message "events.litter.device1"
                            (scenario.litter_json "200" "0.1"));
             (bus.playroom, scenario.message "playroom.alerts.r1"
                              scenario.playroom_json);
             (bus.litter, consumer.mk_msg "events.litter.device1" [xff])]
            scenario.healthy scenario.fresh)).
Proof.
  apply (@deliveries_keep_rows_stamped reference_parsers).
  split; reflexivity.
Defined.


(** X7.  When the database refuses the transaction of a valid playroom
    alert, the exception leaves the handler and nothing is stored: both
    tables are as before, nothing stays pending, and the log gained the
    INFO record of the receipt only. *)
Theorem refused_playroom_alert_is_not_stored `{Parsers} (msg : consumer.Msg)
    (text : string) (payload : models.PlayroomAlertPayload.t)
    (env : Env) (w : World) (url : string) :
  utf8.decode (consumer.data msg) = Some text ->
  models.PlayroomAlertPayload.model_validate_json text = inr payload ->
  _SessionFactory w = Some url ->
  commit_fails env (commits w) = true ->
  fst (consumer.handle_playroom_alert msg env w) = Raise SQLAlchemyError
  /\ events (snd (consumer.handle_playroom_alert msg env w)) = events w
  /\ alerts (snd (consumer.handle_playroom_alert msg env w)) = alerts w
  /\ pending (snd (consumer.handle_playroom_alert msg env w)) = []
  /\ log (snd (consumer.handle_playroom_alert msg env w))
     = log w ++ [mk_log INFO "Received playroom alert for room %s"
                   [arg_str (models.PlayroomAlertPayload.room_id payload)]].
Proof.
  intros Hd Hv Hf Hc.
  rewrite (playroom_valid msg text payload env w url Hd Hv Hf), Hc.
  repeat split.
Qed.

Lemma refused_playroom_alert_is_not_stored_witness :
  fst (@consumer.handle_playroom_alert reference_parsers
         (scenario.message "playroom.alerts.r1" scenario.playroom_json)
         scenario.no_commit scenario.fresh)
  = Raise SQLAlchemyError
  /\ alerts (snd (@consumer.handle_playroom_alert reference_parsers
                    (scenario.message "playroom.alerts.r1"
                       scenario.playroom_json)
                    scenario.no_commit
                    scenario.fresh))
     = [].
Proof.
  destruct (@refused_playroom_alert_is_not_stored reference_parsers
              (scenario.message "playroom.alerts.r1" scenario.playroom_json)
              (scenario.dq scenario.playroom_json) scenario.playroom_payload
              scenario.no_commit
              scenario.fresh "sqlite:///./pets.db")
    as (Hraise & _ & Halerts & _); [vm_compute; reflexivity .. |].
  split; [exact Hraise | exact Halerts].
Defined.

(** X8.  The database is configured once.  When an engine is set,
    [configure] returns and changes nothing, whatever the URL.  When none
    is set and [create_engine] raises for the URL, [configure] raises the
    same and the state is as before: neither global is set, and a later
    call starts over.  When none is set and [create_engine] accepts the
    URL, engine and session factory are bound to it, also when
    [create_all] then raises and [configure] with it; every later call,
    whatever its URL, returns and changes nothing.  In no case does
    [configure] touch a row of the two tables. *)
Theorem configure_first_url_wins (first later : string) (env : Env)
    (w : World) :
  let r := database.configure first env w in
  events (snd r) = events w
  /\ alerts (snd r) = alerts w
  /\ (_engine w <> None -> r = (Return tt, w))
  /\ (_engine w = None ->
      forall exc, create_engine_raises env first = Some exc ->
                  r = (Raise exc, w))
  /\ (_engine w = None -> create_engine_raises env first = None ->
      _engine (snd r) = Some first
      /\ _SessionFactory (snd r) = Some first
      /\ fst r = match create_all_raises env first with
                 | Some exc => Raise exc
                 | None => Return tt
                 end
      /\ database.configure later env (snd r) = (Return tt, snd r)).
Proof.
  unfold database.configure. cbn.
  destruct (_engine w) as [engine|] eqn:He; cbn.
  - repeat split; intros; congruence.
  - destruct (create_engine_raises env first) as [exc|] eqn:Hc; cbn.
    + repeat split; intros; congruence.
    + destruct (create_all_raises env first) as [exc|]; cbn;
        repeat split; intros; congruence.
Qed.

(** The import of the consumer module under its default settings, and a
    second call with another URL. *)
Lemma configure_first_url_wins_witness :
  _SessionFactory
    (snd (database.configure "sqlite:///./pets.db" scenario.healthy
            scenario.blank))
  = Some "sqlite:///./pets.db"
  /\ database.configure "postgresql://db/pets" scenario.healthy scenario.fresh
     = (Return tt, scenario.fresh).
Proof.
  destruct (configure_first_url_wins "sqlite:///./pets.db"
              "postgresql://db/pets" scenario.healthy scenario.blank)
    as (_ & _ & _ & _ & Hset).
  destruct (Hset eq_refl eq_refl) as (_ & Hfactory & _ & Hlater).
  split; [exact Hfactory | exact Hlater].
Defined.

(** ** The session scope *)

Section scope.
Context {A : Type}.

Lemma session_scope_run (body : database.Session -> M A) (env : Env)
    (w : World) (url : string) :
  _SessionFactory w = Some url ->
  database.session_scope body env w
  = match body (database.mk_session url) env (set_pending [] w) with
    | (Raise exc, w2) => (Raise exc, set_pending [] w2)
    | (Return a, w2) =>
        match database.commit (database.mk_session url) env w2 with
        | (Return _, w3) => (Return a, set_pending [] w3)
        | (Raise exc, w3) => (Raise exc, set_pending [] w3)
        end
    end.
Proof.
  intros Hf. unfold database.session_scope, try_finally.
  cbn -[database.commit]. rewrite Hf. cbn -[database.commit].
  destruct (body (database.mk_session url) env (set_pending [] w))
    as [[a|exc] w2]; cbn -[database.commit]; [| reflexivity].
  destruct (database.commit (database.mk_session url) env w2)
    as [[u|exc] w3]; reflexivity.
Qed.

End scope.

(** A flush stores every object it is given, in order, each with its
    column defaults filled in, and touches nothing else. *)
Lemma flush_stores_all (objs : list orm_object) (env : Env) (w : World) :
  exists w' new_events new_alerts,
    database.flush objs env w = (Return tt, w')
    /\ events w' = events w ++ new_events
    /\ alerts w' = alerts w ++ new_alerts
    /\ map event_core new_events = map event_core (events_of objs)
    /\ map alert_core new_alerts = map alert_core (alerts_of objs)
    /\ forallb event_stamped new_events = true
    /\ forallb alert_stamped new_alerts = true
    /\ pending w' = pending w /\ log w' = log w /\ commits w' = commits w.
Proof.
  revert w. induction objs as [|obj rest IH]; intros w.
  - exists w, [], []. simpl. rewrite !app_nil_r. repeat split.
  - destruct obj as [[i src pet ty ts dur conf pl c]|[i pet room kind sev st ev ts c]];
      destruct i as [i|], c as [c|]; cbn;
      match goal with
      | |- context [database.flush rest env ?w1] =>
          destruct (IH w1)
            as (w' & ne & na & Hrun & He & Ha & Hce & Hca & Hse & Hsa
                & Hp & Hl & Hk);
          rewrite Hrun; cbn in He, Ha, Hp, Hl, Hk
      end.
    1-4: match type of He with
         | _ = (_ ++ [?row]) ++ _ => exists w', (row :: ne), na
         end;
         rewrite He, <- app_assoc; cbn; rewrite Hce, Hse;
         repeat split; assumption.
    all: match type of Ha with
         | _ = (_ ++ [?row]) ++ _ => exists w', ne, (row :: na)
         end;
         rewrite Ha, <- app_assoc; cbn; rewrite Hca, Hsa;
         repeat split; assumption.
Qed.

Lemma commit_run (session : database.Session) (env : Env) (w : World) :
  database.commit session env w
  = match pending w with
    | [] => (Return tt, w)
    | objs =>
        if commit_fails env (commits w)
        then (Raise SQLAlchemyError,
              set_events (events w)
                (set_alerts (alerts w)
                   (snd (database.flush objs env (tick_commits w)))))
        else database.flush objs env (set_pending [] (tick_commits w))
    end.
Proof.
  unfold database.commit. cbn -[database.flush].
  destruct (pending w) as [|obj rest]; [reflexivity |].
  cbn -[database.flush].
  destruct (commit_fails env (commits w)); [| reflexivity].
  cbn -[database.flush].
  destruct (flush_stores_all (obj :: rest) env (tick_commits w))
    as (w' & ne & na & Hrun & _).
  rewrite Hrun. reflexivity.
Qed.

(** X9.  [session_scope] passes on what its body raises, after the
    rollback: the scope ends in the same exception, with nothing pending
    and with the rest of the state, the rows the body had committed
    included, as the body left it. *)
Theorem session_scope_reraises {A : Type} (body : database.Session -> M A)
    (env : Env) (w w2 : World) (url : string) (exc : exception) :
  _SessionFactory w = Some url ->
  body (database.mk_session url) env (set_pending [] w) = (Raise exc, w2) ->
  database.session_scope body env w = (Raise exc, set_pending [] w2).
Proof.
  intros Hf Hbody. rewrite (session_scope_run body env w url Hf), Hbody.
  reflexivity.
Qed.

(** A body that adds an alert and then fails. *)
Lemma session_scope_reraises_witness :
  @database.session_scope unit
    (fun session =>
       database.add session
         (orm_alert (AlertRecord.Build None "p1" None "litter-anomaly" "high"
                       "open" None scenario.midnight None)) ;;
       raise (RuntimeError "stop"))
    scenario.healthy scenario.fresh
  = (Raise (RuntimeError "stop"), scenario.fresh).
Proof.
  rewrite (session_scope_reraises _ scenario.healthy scenario.fresh
             (set_pending
                [orm_alert (AlertRecord.Build None "p1" None "litter-anomaly"
                              "high" "open" None scenario.midnight None)]
                scenario.fresh)
             "sqlite:///./pets.db" (RuntimeError "stop"));
    reflexivity.
Defined.

(** X10.  [session_scope] commits what its body added and left
    uncommitted, all of it or none: when the body returns with nothing
    pending the scope returns its value and opens no transaction; when the
    database refuses the transaction the scope raises and both tables are
    as the body left them; when it accepts, every pending object is stored
    once, in order and with [id] and [created_at] filled in.  In each case
    nothing stays pending. *)
Theorem session_scope_commits_pending {A : Type}
    (body : database.Session -> M A) (env : Env) (w w2 : World)
    (url : string) (a : A) :
  _SessionFactory w = Some url ->
  body (database.mk_session url) env (set_pending [] w) = (Return a, w2) ->
  let r := database.session_scope body env w in
  pending (snd r) = []
  /\ (pending w2 = [] ->
      fst r = Return a /\ events (snd r) = events w2
      /\ alerts (snd r) = alerts w2 /\ commits (snd r) = commits w2)
  /\ (pending w2 <> [] -> commit_fails env (commits w2) = true ->
      fst r = Raise SQLAlchemyError /\ events (snd r) = events w2
      /\ alerts (snd r) = alerts w2)
  /\ (pending w2 <> [] -> commit_fails env (commits w2) = false ->
      fst r = Return a
      /\ exists new_events new_alerts,
           events (snd r) = events w2 ++ new_events
           /\ alerts (snd r) = alerts w2 ++ new_alerts
           /\ map event_core new_events
              = map event_core (events_of (pending w2))
           /\ map alert_core new_alerts
              = map alert_core (alerts_of (pending w2))
           /\ forallb event_stamped new_events = true
           /\ forallb alert_stamped new_alerts = true).
Proof.
  intros Hf Hbody r. subst r.
  rewrite (session_scope_run body env w url Hf), Hbody, commit_run.
  destruct (pending w2) as [|obj rest] eqn:Hp.
  - cbn. repeat split; intros; congruence.
  - destruct (commit_fails env (commits w2)) eqn:Hc.
    + cbn. repeat split; intros; congruence.
    + destruct (flush_stores_all (obj :: rest) env
                  (set_pending [] (tick_commits w2)))
        as (w' & ne & na & Hrun & He & Ha & Hce & Hca & Hse & Hsa & _).
      cbv zeta. rewrite Hrun. cbn [fst snd]. cbn in He, Ha.
      split; [reflexivity |].
      split; [intros; congruence |].
      split; [intros; congruence |].
      intros _ _. split; [reflexivity |]. exists ne, na. cbn.
      repeat split; assumption.
Qed.

(** A body that adds an alert and returns: the scope stores it. *)
Lemma session_scope_commits_pending_witness :
  map alert_core
    (alerts (snd (database.session_scope
                    (fun session =>
                       database.add session
                         (orm_alert (AlertRecord.Build None "p1" None
                                       "litter-anomaly" "high" "open" None
                                       scenario.midnight None)))
                    scenario.healthy scenario.fresh)))
  = [AlertRecord.Build None "p1" None "litter-anomaly" "high" "open" None
       scenario.midnight None].
Proof.
  destruct (session_scope_commits_pending
              (fun session =>
                 database.add session
                   (orm_alert (AlertRecord.Build None "p1" None
                                 "litter-anomaly" "high" "open" None
                                 scenario.midnight None)))
              scenario.healthy scenario.fresh
              (set_pending
                 [orm_alert (AlertRecord.Build None "p1" None "litter-anomaly"
                               "high" "open" None scenario.midnight None)]
                 scenario.fresh)
              "sqlite:///./pets.db" tt eq_refl eq_refl)
    as (_ & _ & _ & Haccepted).
  destruct Haccepted as (_ & ne & na & _ & Ha & _ & Hca & _);
    [discriminate | reflexivity |].
  rewrite Ha. cbn [alerts scenario.fresh]. rewrite map_app, Hca. reflexivity.
Defined.

(** ** Redelivery, and a confidence that is no number *)

(** X11.  Nothing is deduplicated: when a valid litter message is
    delivered twice to a process whose database accepts every
    transaction, it is stored twice, as two rows that differ in [id] and
    [created_at] only, and when it breaches a threshold it raises two
    alerts. *)
Theorem redelivery_stores_again `{Parsers} (SETTINGS : consumer.EdgeSettings)
    (msg : consumer.Msg) (text : string)
    (payload : models.LitterEventPayload.t) (env : Env) (w : World)
    (url : string) :
  utf8.decode (consumer.data msg) = Some text ->
  models.LitterEventPayload.model_validate_json text = inr payload ->
  _SessionFactory w = Some url ->
  (forall n, commit_fails env n = false) ->
  let w1 := snd (consumer.handle_litter_event SETTINGS msg env w) in
  let w2 := snd (consumer.handle_litter_event SETTINGS msg env w1) in
  let breach :=
    PyFloat.gt (models.LitterEventPayload.duration_s payload)
               (consumer.litter_duration_threshold SETTINGS)
    || PyFloat.lt (models.LitterEventPayload.conf payload)
                  (consumer.litter_conf_threshold SETTINGS) in
  (exists first second,
      events w2 = events w ++ [first; second]
      /\ event_core first = event_core second
      /\ EventRecordORM.pet_id first = models.LitterEventPayload.pet_id payload
      /\ EventRecordORM.ts first = models.LitterEventPayload.ts payload)
  /\ List.length (alerts w2)
     = List.length (alerts w) + (if breach then 2 else 0).
Proof.
  intros Hd Hv Hf Hall w1 w2 breach. subst w2 w1.
  rewrite (litter_valid SETTINGS msg text payload env w url Hd Hv Hf).
  rewrite !Hall. fold breach. destruct breach eqn:Hb; cbn [snd].
  - match goal with
    | |- context [consumer.handle_litter_event SETTINGS msg env ?w1] =>
        rewrite (litter_valid SETTINGS msg text payload env w1 url Hd Hv Hf)
    end.
    rewrite !Hall. fold breach. rewrite Hb. cbn.
    split.
    + eexists. eexists. rewrite <- app_assoc. cbn.
      split; [reflexivity |]. repeat split.
    + rewrite !length_app. cbn. lia.
  - match goal with
    | |- context [consumer.handle_litter_event SETTINGS msg env ?w1] =>
        rewrite (litter_valid SETTINGS msg text payload env w1 url Hd Hv Hf)
    end.
    rewrite !Hall. fold breach. rewrite Hb. cbn.
    split.
    + eexists. eexists. rewrite <- app_assoc. cbn.
      split; [reflexivity |]. repeat split.
    + lia.
Qed.

(** Scenario 1 delivered twice: two events, two alerts. *)
Lemma redelivery_stores_again_witness :
  List.length
    (events (snd (@consumer.handle_litter_event reference_parsers
                    consumer.default_settings
                    (scenario.message "events.litter.device1"
                       (scenario.litter_json "200" "0.9"))
                    scenario.healthy
                    (snd (scenario.run_litter scenario.healthy
                            "events.litter.device1"
                            (scenario.litter_json "200" "0.9"))))))
  = 2
  /\ List.length
       (alerts (snd (@consumer.handle_litter_event reference_parsers
                       consumer.default_settings
                       (scenario.message "events.litter.device1"
                          (scenario.litter_json "200" "0.9"))
                       scenario.healthy
                       (snd (scenario.run_litter scenario.healthy
                               "events.litter.device1"
                               (scenario.litter_json "200" "0.9"))))))
     = 2.
Proof.
  destruct (@redelivery_stores_again reference_parsers
              consumer.default_settings
              (scenario.message "events.litter.device1"
                 (scenario.litter_json "200" "0.9"))
              (scenario.dq (scenario.litter_json "200" "0.9"))
              (scenario.litter_payload (PyFloat.of_Z 200)
                 (PyFloat.of_decimal false 9 (-1)))
              scenario.healthy scenario.fresh "sqlite:///./pets.db")
    as [(first & second & Hevents & _) Halerts];
    [vm_compute; reflexivity .. | reflexivity |].
  unfold scenario.run_litter. split.
  - rewrite Hevents. reflexivity.
  - rewrite Halerts. vm_compute; reflexivity.
Defined.

(** X12.  A confidence that is NaN is no breach: [conf < threshold] is
    false for it, so a valid litter event whose [conf] is NaN never gets
    severity "high"; it raises a "moderate" alert when its duration
    exceeds the threshold and no alert otherwise. *)
Theorem nan_confidence_is_no_breach `{Parsers}
    (SETTINGS : consumer.EdgeSettings) (msg : consumer.Msg) (text : string)
    (payload : models.LitterEventPayload.t) (env : Env) (w : World)
    (url : string) :
  utf8.decode (consumer.data msg) = Some text ->
  models.LitterEventPayload.model_validate_json text = inr payload ->
  models.LitterEventPayload.conf payload = S754_nan ->
  _SessionFactory w = Some url ->
  commit_fails env (commits w) = false ->
  commit_fails env (S (commits w)) = false ->
  let w' := snd (consumer.handle_litter_event SETTINGS msg env w) in
  (PyFloat.gt (models.LitterEventPayload.duration_s payload)
              (consumer.litter_duration_threshold SETTINGS) = true ->
   exists a, alerts w' = alerts w ++ [a]
             /\ AlertRecord.severity a = "moderate")
  /\ (PyFloat.gt (models.LitterEventPayload.duration_s payload)
                 (consumer.litter_duration_threshold SETTINGS) = false ->
      alerts w' = alerts w).
Proof.
  intros Hd Hv Hnan Hf Hc1 Hc2 w'. subst w'.
  rewrite (litter_valid SETTINGS msg text payload env w url Hd Hv Hf).
  rewrite Hc1, Hc2, Hnan.
  assert (Hlt : PyFloat.lt S754_nan (consumer.litter_conf_threshold SETTINGS)
                = false) by reflexivity.
  rewrite Hlt. split; intros Hgt; rewrite Hgt; cbn.
  - eexists. split; reflexivity.
  - reflexivity.
Qed.

(** The scenario message with [conf] NaN: 200 s gives "moderate", 50 s
    gives nothing. *)
Lemma nan_confidence_is_no_breach_witness :
  map AlertRecord.severity
    (alerts (snd (scenario.run_litter scenario.healthy "events.litter.device1"
                    (scenario.litter_json "200" "NaN"))))
  = ["moderate"]
  /\ alerts (snd (scenario.run_litter scenario.healthy "events.litter.device1"
                    (scenario.litter_json "50" "NaN"))) = [].
Proof.
  split.
  - destruct (@nan_confidence_is_no_breach reference_parsers
                consumer.default_settings
                (scenario.message "events.litter.device1"
                   (scenario.litter_json "200" "NaN"))
                (scenario.dq (scenario.litter_json "200" "NaN"))
                (scenario.litter_payload (PyFloat.of_Z 200) S754_nan)
                scenario.healthy scenario.fresh "sqlite:///./pets.db")
      as [Hmoderate _]; [vm_compute; reflexivity .. |].
    destruct Hmoderate as (a & Halerts & Hseverity);
      [vm_compute; reflexivity |].
    unfold scenario.run_litter. rewrite Halerts. cbn. now rewrite Hseverity.
  - apply (@nan_confidence_is_no_breach reference_parsers
             consumer.default_settings
             (scenario.message "events.litter.device1"
                (scenario.litter_json "50" "NaN"))
             (scenario.dq (scenario.litter_json "50" "NaN"))
             (scenario.litter_payload (PyFloat.of_Z 50) S754_nan)
             scenario.healthy scenario.fresh "sqlite:///./pets.db");
      vm_compute; reflexivity.
Defined.

(** ** Which subjects reach which handler *)

Lemma append_empty (s : string) : (s ++ "")%string = s.
Proof. induction s as [|c s IH]; simpl; [reflexivity | now rewrite IH]. Qed.

Lemma append_step (s : string) (c : ascii) (r : string) :
  ((s ++ String c "") ++ r)%string = (s ++ String c r)%string.
Proof. induction s as [|d s IH]; simpl; [reflexivity | now rewrite IH]. Qed.

Lemma split_not_nil (s current : string) : nats.split s current <> [].
Proof.
  revert current. induction s as [|c r IH]; intros current; simpl.
  - discriminate.
  - destruct (Ascii.eqb c "."); [discriminate | apply IH].
Qed.

Lemma join_cons (t : string) (rest : list string) :
  rest <> [] -> join (t :: rest) = (t ++ String "." (join rest))%string.
Proof. destruct rest; [contradiction | reflexivity]. Qed.

(** Splitting loses nothing: the tokens joined again are the subject. *)
Lemma join_split (s current : string) :
  join (nats.split s current) = (current ++ s)%string.
Proof.
  revert current. induction s as [|c r IH]; intros current.
  - simpl. now rewrite append_empty.
  - cbn [nats.split]. destruct (Ascii.eqb_spec c ".") as [->|Hc].
    + rewrite join_cons by apply split_not_nil. now rewrite IH.
    + rewrite IH. apply append_step.
Qed.

Lemma free_append (s : string) (c : ascii) :
  free_of_stops s = true -> Ascii.eqb c "." = false ->
  free_of_stops (s ++ String c "") = true.
Proof.
  intros Hs Hc. induction s as [|d s IH]; simpl in *.
  - now rewrite Hc.
  - apply andb_true_iff in Hs. destruct Hs as [Hd Hs].
    rewrite Hd. simpl. now apply IH.
Qed.

Lemma split_tokens_free (s current : string) :
  free_of_stops current = true ->
  forallb free_of_stops (nats.split s current) = true.
Proof.
  revert current. induction s as [|c r IH]; intros current Hcur; simpl.
  - now rewrite Hcur.
  - destruct (Ascii.eqb c ".") eqn:Hc; simpl.
    + rewrite Hcur. now apply IH.
    + apply IH. now apply free_append.
Qed.

Lemma split_free (s current : string) :
  free_of_stops s = true -> nats.split s current = [(current ++ s)%string].
Proof.
  revert current. induction s as [|c r IH]; intros current Hs; simpl in *.
  - now rewrite append_empty.
  - apply andb_true_iff in Hs. destruct Hs as [Hc Hr].
    apply negb_true_iff in Hc. rewrite Hc, (IH _ Hr).
    now rewrite append_step.
Qed.

(** A pattern of two literal tokens and [*]. *)
Lemma match_two_and_star (a b : string) (toks : list string) :
  String.eqb a ">" = false -> String.eqb a "*" = false ->
  String.eqb b ">" = false -> String.eqb b "*" = false ->
  nats.match_tokens [a; b; "*"] toks = true
  <-> exists t, nats.nonempty t = true /\ toks = [a; b; t].
Proof.
  intros Ha1 Ha2 Hb1 Hb2. split.
  - destruct toks as [|t1 [|t2 [|t3 [|t4 rest]]]]; simpl;
      rewrite ?Ha1, ?Ha2, ?Hb1, ?Hb2; simpl; try discriminate;
      try (intros Hm; apply andb_true_iff in Hm; destruct Hm as [_ Hm];
           try discriminate;
           apply andb_true_iff in Hm; destruct Hm as [_ Hm];
           try discriminate;
           apply andb_true_iff in Hm; destruct Hm as [_ Hm];
           discriminate).
    intros Hm.
    apply andb_true_iff in Hm. destruct Hm as [H1 Hm].
    apply andb_true_iff in Hm. destruct Hm as [H2 Hm].
    apply andb_true_iff in Hm. destruct Hm as [H3 _].
    apply String.eqb_eq in H1, H2. subst. now exists t3.
  - intros [t [Ht ->]]. simpl. rewrite Ha1, Ha2, Hb1, Hb2, !String.eqb_refl, Ht.
    reflexivity.
Qed.

Lemma litter_subjects (subject : string) :
  nats.matches "events.litter.*" subject = true
  <-> exists token, is_token token = true
                    /\ subject = ("events.litter." ++ token)%string.
Proof.
  unfold nats.matches.
  change (nats.tokens "events.litter.*") with ["events"; "litter"; "*"].
  rewrite (match_two_and_star "events" "litter") by reflexivity.
  split.
  - intros [t [Ht Htoks]].
    pose proof (join_split subject "") as Hj.
    pose proof (split_tokens_free subject "" eq_refl) as Hfree.
    unfold nats.tokens in Htoks. rewrite Htoks in Hj, Hfree.
    simpl in Hj, Hfree. rewrite andb_true_r in Hfree.
    exists t. unfold is_token. rewrite Ht, Hfree.
    split; [reflexivity |]. destruct t; [discriminate | now subst].
  - intros [t [Ht ->]]. unfold is_token in Ht.
    apply andb_true_iff in Ht. destruct Ht as [Hne Hfree].
    exists t. split; [assumption |].
    unfold nats.tokens. cbn. now rewrite (split_free t "" Hfree).
Qed.

Lemma playroom_subjects (subject : string) :
  nats.matches "playroom.alerts.*" subject = true
  <-> exists token, is_token token = true
                    /\ subject = ("playroom.alerts." ++ token)%string.
Proof.
  unfold nats.matches.
  change (nats.tokens "playroom.alerts.*") with ["playroom"; "alerts"; "*"].
  rewrite (match_two_and_star "playroom" "alerts") by reflexivity.
  split.
  - intros [t [Ht Htoks]].
    pose proof (join_split subject "") as Hj.
    pose proof (split_tokens_free subject "" eq_refl) as Hfree.
    unfold nats.tokens in Htoks. rewrite Htoks in Hj, Hfree.
    simpl in Hj, Hfree. rewrite andb_true_r in Hfree.
    exists t. unfold is_token. rewrite Ht, Hfree.
    split; [reflexivity |]. destruct t; [discriminate | now subst].
  - intros [t [Ht ->]]. unfold is_token in Ht.
    apply andb_true_iff in Ht. destruct Ht as [Hne Hfree].
    exists t. split; [assumption |].
    unfold nats.tokens. cbn. now rewrite (split_free t "" Hfree).
Qed.

(** X13.  [main] subscribes the litter handler to [events.litter.*] and the
    playroom handler to [playroom.alerts.*].  A subject is delivered to the
    litter handler exactly when it is [events.litter.] followed by one token
    (not empty, no full stop), to the playroom handler exactly when it is
    [playroom.alerts.] followed by one token, and no subject is delivered to
    both. *)
Theorem subject_routing (subject : string) :
  (In bus.litter (bus.routes_of subject)
   <-> exists token, is_token token = true
                     /\ subject = ("events.litter." ++ token)%string)
  /\ (In bus.playroom (bus.routes_of subject)
      <-> exists token, is_token token = true
                        /\ subject = ("playroom.alerts." ++ token)%string)
  /\ ~ (In bus.litter (bus.routes_of subject)
        /\ In bus.playroom (bus.routes_of subject)).
Proof.
  assert (Hl : In bus.litter (bus.routes_of subject)
               <-> nats.matches "events.litter.*" subject = true).
  { unfold bus.routes_of. rewrite filter_In. simpl. split.
    - intros [_ Hm]. exact Hm.
    - intros Hm. split; [now left | exact Hm]. }
  assert (Hp : In bus.playroom (bus.routes_of subject)
               <-> nats.matches "playroom.alerts.*" subject = true).
  { unfold bus.routes_of. rewrite filter_In. simpl. split.
    - intros [_ Hm]. exact Hm.
    - intros Hm. split; [now right; left | exact Hm]. }
  split; [| split].
  - rewrite Hl. apply litter_subjects.
  - rewrite Hp. apply playroom_subjects.
  - rewrite Hl, Hp, litter_subjects, playroom_subjects.
    intros [[t [_ ->]] [u [_ Hu]]]. discriminate Hu.
Qed.

(** ** The search endpoint *)

(** X14.  For a request that passed validation ([top_k] absent or at least
    1), [search] raises only when no [top_k] was given and there is no
    candidate, and then with status 422; otherwise it answers with the
    leading candidates, in order: [top_k] of them, or all when there are
    fewer or no [top_k] was given. *)
Theorem search_answers_leading_candidates
    (candidates : list main.SearchCandidate) (request : main.SearchRequest) :
  main.top_k_valid request = true ->
  (forall e, main.search candidates request = inl e ->
     e = main.mk_http 422 "top_k must be positive"
     /\ main.top_k request = None /\ candidates = [])
  /\ (main.top_k request = None -> candidates = [] ->
      main.search candidates request
      = inl (main.mk_http 422 "top_k must be positive"))
  /\ (forall found, main.search candidates request = inr found ->
      (exists rest, candidates = found ++ rest)
      /\ List.length found
         = match main.top_k request with
           | Some k => Nat.min (Z.to_nat k) (List.length candidates)
           | None => List.length candidates
           end).
Proof.
  intros Hvalid. unfold main.top_k_valid in Hvalid.
  unfold main.search, main.or_else, main.slice_to.
  destruct (main.top_k request) as [k|].
  - apply Z.leb_le in Hvalid.
    destruct (Z.eqb_spec k 0) as [->|_]; [lia |].
    destruct (Z.leb_spec k 0) as [Hk|_]; [lia |].
    destruct (Z.ltb_spec k 0) as [Hk|_]; [lia |].
    split; [| split].
    + intros e He. discriminate He.
    + intros Hnone. discriminate Hnone.
    + intros found Hfound. injection Hfound as <-. split.
      * exists (skipn (Z.to_nat k) candidates).
        symmetry. apply firstn_skipn.
      * apply length_firstn.
  - destruct candidates as [|c cs].
    + split; [| split].
      * intros e He. injection He as <-. auto.
      * reflexivity.
      * intros found Hfound. discriminate Hfound.
    + destruct (Z.leb_spec (Z.of_nat (List.length (c :: cs))) 0) as [Hk|_];
        [simpl in Hk; lia |].
      destruct (Z.ltb_spec (Z.of_nat (List.length (c :: cs))) 0) as [Hk|_];
        [lia |].
      rewrite Nat2Z.id, firstn_all.
      split; [| split].
      * intros e He. discriminate He.
      * intros _ Hnil. discriminate Hnil.
      * intros found Hfound. injection Hfound as <-. split.
        -- exists []. symmetry. apply app_nil_r.
        -- reflexivity.
Qed.

Lemma search_answers_leading_candidates_witness :
  main.top_k_valid (main.mk_request "case-1" (Some 1%Z)) = true
  /\ List.length [main.mk_candidate "pet-1" (PyFloat.of_Z 1) main.strong]
     = Nat.min (Z.to_nat 1) 2.
Proof.
  destruct (search_answers_leading_candidates
              [main.mk_candidate "pet-1" (PyFloat.of_Z 1) main.strong;
               main.mk_candidate "pet-2" (PyFloat.of_Z 0) main.weak]
              (main.mk_request "case-1" (Some 1%Z)) eq_refl)
    as [_ [_ Hfound]].
  destruct (Hfound [main.mk_candidate "pet-1" (PyFloat.of_Z 1) main.strong]
              eq_refl) as [_ Hlen].
  split; [reflexivity | exact Hlen].
Defined.

(** ** An alert with a time of its own *)

(** X15.  [create_alert_from_event] called with a [ts], in a session with
    nothing else pending, attempts one transaction and never touches
    [events].  When the database accepts it, exactly one alert row is
    added: it holds the fields given and that [ts], its [id] is the next
    UUID, its [created_at] the clock's reading; the clock is read once
    only, for [created_at] and not for [ts], and nothing stays pending.
    The helper then returns, unless an [evidence_url] was given that does
    not parse as a URL: the response it builds raises [ValidationError],
    with the row already stored.  When the database refuses the
    transaction, the helper raises and [alerts] is as before. *)
Theorem alert_keeps_given_ts `{Parsers} (session : database.Session)
    (pet_id kind severity state : string) (room_id evidence_url : option string)
    (ts : datetime) (env : Env) (w : World) :
  pending w = [] ->
  let r := database.create_alert_from_event session pet_id kind severity
             state room_id evidence_url (Some ts) env w in
  events (snd r) = events w
  /\ commits (snd r) = S (commits w)
  /\ (commit_fails env (commits w) = true ->
      fst r = Raise SQLAlchemyError /\ alerts (snd r) = alerts w)
  /\ (commit_fails env (commits w) = false ->
      alerts (snd r)
      = alerts w
        ++ [AlertRecord.Build (Some (uuid4 env (uuids_drawn w)))
              pet_id room_id kind severity state evidence_url ts
              (Some (mk_datetime (utc_clock env (clock_reads w))
                                 timezone_utc))]
      /\ clock_reads (snd r) = S (clock_reads w)
      /\ pending (snd r) = []
      /\ fst r
         = match evidence_url with
           | None => Return tt
           | Some text =>
               match url_validator (JStr text) with
               | Some _ => Return tt
               | None =>
                   Raise (ValidationError
                            [models.mk_error "url_type" ["evidence_url"]])
               end
           end).
Proof.
  intros Hp r. subst r.
  unfold database.create_alert_from_event, database.Alert_model_validate.
  destruct (commit_fails env (commits w)) eqn:Hc.
  - run. repeat split; intros; congruence.
  - destruct evidence_url as [text|];
      [destruct (url_validator (JStr text)) as [again|] eqn:Hu |];
      run; repeat split; intros; congruence.
Qed.

(** An alert for scenario 1's pet, given midnight as its [ts]. *)
Lemma alert_keeps_given_ts_witness :
  map AlertRecord.ts
    (alerts (snd (@database.create_alert_from_event reference_parsers
                    (database.mk_session "sqlite:///./pets.db")
                    "p1" "litter-anomaly" "high" database.default_state
                    None None (Some scenario.midnight)
                    scenario.healthy scenario.fresh)))
  = [scenario.midnight]
  /\ clock_reads
       (snd (@database.create_alert_from_event reference_parsers
               (database.mk_session "sqlite:///./pets.db")
               "p1" "litter-anomaly" "high" database.default_state
               None None (Some scenario.midnight)
               scenario.healthy scenario.fresh))
     = 1.
Proof.
  destruct (@alert_keeps_given_ts reference_parsers
              (database.mk_session "sqlite:///./pets.db")
              "p1" "litter-anomaly" "high" database.default_state None None
              scenario.midnight scenario.healthy scenario.fresh eq_refl)
    as (_ & _ & _ & Haccepted).
  destruct (Haccepted eq_refl) as (Halerts & Hclock & _).
  rewrite Halerts, Hclock. split; reflexivity.
Defined.
